(** * terraform-provider-openwebui: the model resource and the model data source

    A shallow embedding of
      - internal/provider/models_resource.go (ModelResource, its schema, its
        Create/Read/Update/Delete handlers and AccessControlDefaultModifier),
      - the model data source (ModelDataSource, its schema and Read),
    over a small model of the terraform-plugin-framework values they handle
    (three-state strings, booleans and objects, diagnostics, paths, state).

    Go maps of attribute values and attribute types are finite maps
    ([gmap string _]); tri-state framework values are inductive types with one
    constructor per state; the handlers, which mutate [resp] and call the
    remote client, are functions in a state monad over the remote store that
    also logs every client call and can panic on a nil dereference. *)

From Stdlib Require Import ZArith Floats.SpecFloat.
From stdpp Require Import base option strings gmap list.

Set Warnings "-register-all".
Set Default Proof Using "Type".

Open Scope string_scope.
Open Scope list_scope.

(* ===================================================================== *)
(** ** path: attribute paths *)
(* ===================================================================== *)

Module path.

Inductive PathStep : Type :=
  | PathStepAttributeName (name : string)
  | PathStepElementKeyInt (i : nat).

Definition Path : Type := list PathStep.

(** [path.Root(name)] *)
Definition Root (name : string) : Path := [PathStepAttributeName name].

(** [p.AtName(name)] *)
Definition AtName (p : Path) (name : string) : Path :=
  p ++ [PathStepAttributeName name].

(** [p.AtListIndex(i)] *)
Definition AtListIndex (p : Path) (i : nat) : Path :=
  p ++ [PathStepElementKeyInt i].

#[global] Instance PathStep_eq_dec : EqDecision PathStep.
Proof. solve_decision. Defined.

End path.

(* ===================================================================== *)
(** ** diag: diagnostics *)
(* ===================================================================== *)

Module diag.

Inductive Severity : Type := SeverityError | SeverityWarning.

(** A diagnostic; [AttrPath] is [Some p] for the attribute diagnostics made
    by [AddAttributeError]. *)
Record Diagnostic : Type := mkDiagnostic {
  Sev : Severity;
  Summary : string;
  Detail : string;
  AttrPath : option path.Path;
}.

Definition Diagnostics : Type := list Diagnostic.

#[global] Instance Severity_eq_dec : EqDecision Severity.
Proof. solve_decision. Defined.

#[global] Instance Diagnostic_eq_dec : EqDecision Diagnostic.
Proof. solve_decision. Defined.

Definition NewErrorDiagnostic (summary detail : string) : Diagnostic :=
  mkDiagnostic SeverityError summary detail None.

Definition NewAttributeErrorDiagnostic
    (p : path.Path) (summary detail : string) : Diagnostic :=
  mkDiagnostic SeverityError summary detail (Some p).

(** [diags.Contains(d)] *)
Definition Contains (diags : Diagnostics) (d : Diagnostic) : bool :=
  bool_decide (d ∈ diags).

(** [diags.Append(in...)]: a diagnostic already present is not added
    again. *)
Fixpoint Append (diags new : Diagnostics) : Diagnostics :=
  match new with
  | [] => diags
  | d :: rest =>
      if Contains diags d then Append diags rest
      else Append (diags ++ [d]) rest
  end.

Definition AddError (diags : Diagnostics) (summary detail : string)
    : Diagnostics :=
  Append diags [NewErrorDiagnostic summary detail].

Definition AddAttributeError
    (diags : Diagnostics) (p : path.Path) (summary detail : string)
    : Diagnostics :=
  Append diags [NewAttributeErrorDiagnostic p summary detail].

Definition is_error (d : Diagnostic) : bool :=
  match Sev d with SeverityError => true | SeverityWarning => false end.

(** [diags.HasError()] *)
Definition HasError (diags : Diagnostics) : bool := existsb is_error diags.

End diag.

(* ===================================================================== *)
(** ** types: framework values *)
(* ===================================================================== *)

Module types.

(** [attr.Type], as far as the two schemas use it. *)
Inductive AttrType : Type :=
  | StringType
  | BoolType
  | Int64Type
  | Float64Type
  | ListType (ElemType : AttrType)
  | SetType (ElemType : AttrType)
  | ObjectType (AttrTypes : gmap string AttrType).

(** [t.Equal(candidate)]; for objects: same number of attributes, and every
    attribute of [t] is in the candidate with an equal type. *)
Fixpoint AttrType_Equal (t candidate : AttrType) {struct t} : bool :=
  match t, candidate with
  | StringType, StringType => true
  | BoolType, BoolType => true
  | Int64Type, Int64Type => true
  | Float64Type, Float64Type => true
  | ListType e, ListType e' => AttrType_Equal e e'
  | SetType e, SetType e' => AttrType_Equal e e'
  | ObjectType ats, ObjectType other =>
      bool_decide (size other = size ats) &&
      map_fold (fun k v acc =>
                  acc && match other !! k with
                         | Some a => AttrType_Equal v a
                         | None => false
                         end) true ats
  | _, _ => false
  end.

(** [types.String]: null (also the zero value), unknown, or a known Go
    string. *)
Inductive String : Type :=
  | StringNull
  | StringUnknown
  | StringValue (value : string).

Inductive Bool : Type :=
  | BoolNull
  | BoolUnknown
  | BoolValue (value : bool).

Inductive Int64 : Type :=
  | Int64Null
  | Int64Unknown
  | Int64Value (value : Z).

Inductive Float64 : Type :=
  | Float64Null
  | Float64Unknown
  | Float64Value (value : spec_float).

(** [types.List] and [types.Object] over a value type [V]; a null or
    unknown value still carries its element or attribute types. *)
Inductive ListOf (V : Type) : Type :=
  | ListNull (elementType : AttrType)
  | ListUnknown (elementType : AttrType)
  | ListKnown (elementType : AttrType) (elements : list V).

Inductive ObjectOf (V : Type) : Type :=
  | ObjectNull (attributeTypes : gmap string AttrType)
  | ObjectUnknown (attributeTypes : gmap string AttrType)
  | ObjectKnown (attributeTypes : gmap string AttrType)
                (attributes : gmap string V).

Arguments ListNull {V}.
Arguments ListUnknown {V}.
Arguments ListKnown {V}.
Arguments ObjectNull {V}.
Arguments ObjectUnknown {V}.
Arguments ObjectKnown {V}.

(** [attr.Value] *)
Inductive Value : Type :=
  | VString (s : String)
  | VBool (b : Bool)
  | VInt64 (i : Int64)
  | VFloat64 (f : Float64)
  | VList (l : ListOf Value)
  | VSet (l : ListOf Value)
  | VObject (o : ObjectOf Value).

Definition List : Type := ListOf Value.
Definition Object : Type := ObjectOf Value.

(** *** methods of the basic values *)

Definition String_IsNull (s : String) : bool :=
  match s with StringNull => true | _ => false end.

Definition String_IsUnknown (s : String) : bool :=
  match s with StringUnknown => true | _ => false end.

(** [s.ValueString()]: the empty string for null and unknown. *)
Definition ValueString (s : String) : string :=
  match s with StringValue v => v | _ => "" end.

Definition Bool_IsNull (b : Bool) : bool :=
  match b with BoolNull => true | _ => false end.

Definition Bool_IsUnknown (b : Bool) : bool :=
  match b with BoolUnknown => true | _ => false end.

(** [b.ValueBool()]: [false] for null and unknown. *)
Definition ValueBool (b : Bool) : bool :=
  match b with BoolValue v => v | _ => false end.

Definition Object_IsNull (o : Object) : bool :=
  match o with ObjectNull _ => true | _ => false end.

Definition Object_IsUnknown (o : Object) : bool :=
  match o with ObjectUnknown _ => true | _ => false end.

Definition Object_AttributeTypes (o : Object) : gmap string AttrType :=
  match o with
  | ObjectNull ats | ObjectUnknown ats | ObjectKnown ats _ => ats
  end.

Definition List_ElementType (l : List) : AttrType :=
  match l with
  | ListNull e | ListUnknown e | ListKnown e _ => e
  end.

(** [v.Type(ctx)] *)
Definition Value_Type (v : Value) : AttrType :=
  match v with
  | VString _ => StringType
  | VBool _ => BoolType
  | VInt64 _ => Int64Type
  | VFloat64 _ => Float64Type
  | VList l => ListType (List_ElementType l)
  | VSet l => SetType (List_ElementType l)
  | VObject o => ObjectType (Object_AttributeTypes o)
  end.

(** *** value constructors that validate *)

(** [types.ObjectValue(attributeTypes, attributes)]: every declared
    attribute must be given with a value of the declared type and no other
    attribute may be given; on any error the result is the unknown object. *)
Definition ObjectValue
    (attributeTypes : gmap string AttrType) (attributes : gmap string Value)
    : Object * diag.Diagnostics :=
  let diags :=
    map_fold (fun name attributeType (ds : diag.Diagnostics) =>
                match attributes !! name with
                | None =>
                    diag.AddError ds "Missing Object Attribute Value" name
                | Some attribute =>
                    if AttrType_Equal attributeType (Value_Type attribute)
                    then ds
                    else diag.AddError ds "Invalid Object Attribute Type" name
                end) [] attributeTypes in
  let diags :=
    map_fold (fun name (_ : Value) (ds : diag.Diagnostics) =>
                match attributeTypes !! name with
                | Some _ => ds
                | None => diag.AddError ds "Extra Object Attribute Value" name
                end) diags attributes in
  if diag.HasError diags then (ObjectUnknown attributeTypes, diags)
  else (ObjectKnown attributeTypes attributes, []).

(** [types.ListValueFrom(ctx, elementType, elements)] for a Go [[]string]:
    each string becomes a known [types.String], which the element type
    must be able to hold. *)
Definition ListValueFrom (elementType : AttrType) (elements : list string)
    : List * diag.Diagnostics :=
  if AttrType_Equal elementType StringType
  then (ListKnown elementType (map (fun s => VString (StringValue s)) elements), [])
  else (ListUnknown elementType,
        [diag.NewErrorDiagnostic "Value Conversion Error"
           "cannot use a Go string slice for this element type"]).

End types.

(* ===================================================================== *)
(** ** models: the resource struct of the models client *)
(* ===================================================================== *)

Module models.

(** Modelled from the spec: the struct [models.Model] is declared in
    internal/provider/client/models, which is not among the sources.  Its
    fields are the top-level attributes of the resource schema and of the
    wire shape of the spec (section 6), under their tfsdk names; the handlers
    only ever touch [ID]. *)
Record Model : Type := mkModel {
  ID : types.String;             (* id *)
  UserID : types.String;         (* user_id *)
  BaseModelID : types.String;    (* base_model_id *)
  Name : types.String;           (* name *)
  Params : types.Object;         (* params *)
  Meta : types.Object;           (* meta *)
  AccessControl : types.Object;  (* access_control *)
  IsActive : types.Bool;         (* is_active *)
  CreatedAt : types.Int64;       (* created_at *)
  UpdatedAt : types.Int64;       (* updated_at *)
  IsPrivate : types.Bool;        (* is_private *)
}.

(** The Go zero value [models.Model{}]: every field null. *)
Definition zero : Model :=
  mkModel types.StringNull types.StringNull types.StringNull types.StringNull
          (types.ObjectNull ∅) (types.ObjectNull ∅) (types.ObjectNull ∅)
          types.BoolNull types.Int64Null types.Int64Null types.BoolNull.

(** [m.ID = id] *)
Definition set_ID (m : Model) (id : types.String) : Model :=
  mkModel id (UserID m) (BaseModelID m) (Name m) (Params m) (Meta m)
          (AccessControl m) (IsActive m) (CreatedAt m) (UpdatedAt m)
          (IsPrivate m).

(** [m.AccessControl = ac] *)
Definition set_AccessControl (m : Model) (ac : types.Object) : Model :=
  mkModel (ID m) (UserID m) (BaseModelID m) (Name m) (Params m) (Meta m)
          ac (IsActive m) (CreatedAt m) (UpdatedAt m) (IsPrivate m).

(** [m.IsPrivate = b] *)
Definition set_IsPrivate (m : Model) (b : types.Bool) : Model :=
  mkModel (ID m) (UserID m) (BaseModelID m) (Name m) (Params m) (Meta m)
          (AccessControl m) (IsActive m) (CreatedAt m) (UpdatedAt m) b.

(** The attribute stored under a tfsdk name. *)
Definition Attribute (m : Model) (name : string) : option types.Value :=
  if decide (name = "id") then Some (types.VString (ID m))
  else if decide (name = "user_id") then Some (types.VString (UserID m))
  else if decide (name = "base_model_id") then Some (types.VString (BaseModelID m))
  else if decide (name = "name") then Some (types.VString (Name m))
  else if decide (name = "params") then Some (types.VObject (Params m))
  else if decide (name = "meta") then Some (types.VObject (Meta m))
  else if decide (name = "access_control") then Some (types.VObject (AccessControl m))
  else if decide (name = "is_active") then Some (types.VBool (IsActive m))
  else if decide (name = "created_at") then Some (types.VInt64 (CreatedAt m))
  else if decide (name = "updated_at") then Some (types.VInt64 (UpdatedAt m))
  else if decide (name = "is_private") then Some (types.VBool (IsPrivate m))
  else None.

(** Go's [error], by its message [err.Error()]. *)
Definition error : Type := string.

(** Modelled from the spec: the client [models.Client] (the Remote Resource
    Store of the spec) is not among the sources.  Per section 4.4 of the spec
    each operation returns either a resource or an error; here an operation
    is any function from its arguments and the state [S] of the remote store
    to a Go result pair (pointer, error) and the state of the store
    afterwards.  A nil pointer is [None], a nil error is [None]. *)
Record Client (S : Type) : Type := mkClient {
  CreateModel : Model -> S -> (option Model * option error) * S;
  GetModel : string -> S -> (option Model * option error) * S;
  UpdateModel : string -> Model -> S -> (option Model * option error) * S;
  DeleteModel : string -> S -> option error * S;
}.

Arguments CreateModel {S}.
Arguments GetModel {S}.
Arguments UpdateModel {S}.
Arguments DeleteModel {S}.

End models.

(* ===================================================================== *)
(** ** tfsdk: plan, state and config data *)
(* ===================================================================== *)

Module tfsdk.

(** The raw data of a [tfsdk.Plan], [tfsdk.State] or [tfsdk.Config] of the
    model schema: the null object (no resource) or an object that decodes
    into a [models.Model]. *)
Inductive Data : Type :=
  | Null
  | Known (m : models.Model).

Definition Plan : Type := Data.
Definition State : Type := Data.
Definition Config : Type := Data.

(** [d.Get(ctx, &target)] for a [models.Model] target: the decoded struct and
    the diagnostics.  A struct cannot hold the null object; the target is
    then left as it was declared, the zero value. *)
Definition Get (d : Data) : models.Model * diag.Diagnostics :=
  match d with
  | Known m => (m, [])
  | Null =>
      (models.zero,
       [diag.NewErrorDiagnostic "Value Conversion Error"
          "Received null value, however the target type cannot handle null values."])
  end.

(** [d.Set(ctx, val)] for a [*models.Model] ([Set] is reserved, hence [Set_]):
    the data afterwards and the
    diagnostics.  A nil pointer is stored as the null object, without a
    diagnostic. *)
Definition Set_ (val : option models.Model) : Data * diag.Diagnostics :=
  match val with
  | Some m => (Known m, [])
  | None => (Null, [])
  end.

(** [d.GetAttribute(ctx, path, &target)] for a [types.Bool] target.  The
    target is declared just before and keeps its zero value, null, when the
    path holds no boolean; null data holds null at every path. *)
Definition GetAttribute_Bool (d : Data) (p : path.Path) : types.Bool :=
  match d, p with
  | Known m, [path.PathStepAttributeName name] =>
      match models.Attribute m name with
      | Some (types.VBool b) => b
      | _ => types.BoolNull
      end
  | _, _ => types.BoolNull
  end.

(** [d.GetAttribute(ctx, path, &target)] for a [types.Object] target. *)
Definition GetAttribute_Object (d : Data) (p : path.Path) : types.Object :=
  match d, p with
  | Known m, [path.PathStepAttributeName name] =>
      match models.Attribute m name with
      | Some (types.VObject o) => o
      | _ => types.ObjectNull ∅
      end
  | _, _ => types.ObjectNull ∅
  end.

End tfsdk.

(* ===================================================================== *)
(** ** planmodifier: requests and responses of an object plan modifier *)
(* ===================================================================== *)

Module planmodifier.

Record ObjectRequest : Type := mkObjectRequest {
  Path : path.Path;
  Config : tfsdk.Config;
  ConfigValue : types.Object;
  Plan : tfsdk.Plan;
  PlanValue : types.Object;
  State : tfsdk.State;
  StateValue : types.Object;
}.

Record ObjectResponse : Type := mkObjectResponse {
  RespPlanValue : types.Object;
  Diagnostics : diag.Diagnostics;
  RequiresReplace : bool;
}.

(** The request with another plan. *)
Definition with_Plan (req : ObjectRequest) (plan : tfsdk.Plan)
    : ObjectRequest :=
  mkObjectRequest (Path req) (Config req) (ConfigValue req) plan
                  (PlanValue req) (State req) (StateValue req).

(** The response the framework hands to a modifier: the plan value of the
    request, and the diagnostics and flag accumulated so far. *)
Definition initial (req : ObjectRequest) : ObjectResponse :=
  mkObjectResponse (PlanValue req) [] false.

End planmodifier.

(* ===================================================================== *)
(** ** AccessControlDefaultModifier *)
(* ===================================================================== *)

Module AccessControlDefaultModifier.

Import types.

Definition Description : string :=
  "Ensures access_control is set to default values when is_private is true.".

(** The attribute types of a [read] or [write] permission object. *)
Definition permissionTypes : gmap string AttrType :=
  {[ "group_ids" := ListType StringType; "user_ids" := ListType StringType ]}.

(** [attributeTypes] of [PlanModifyObject]. *)
Definition attributeTypes : gmap string AttrType :=
  {[ "read" := ObjectType permissionTypes;
     "write" := ObjectType permissionTypes ]}.

(** [PlanModifyObject]: the response as the call leaves it, from the request
    and the response as the call finds it. *)
Definition PlanModifyObject
    (req : planmodifier.ObjectRequest) (resp : planmodifier.ObjectResponse)
    : planmodifier.ObjectResponse :=
  let isPrivate :=
    tfsdk.GetAttribute_Bool (planmodifier.Plan req) (path.Root "is_private") in
  let accessControl :=
    tfsdk.GetAttribute_Object (planmodifier.Plan req)
                              (path.Root "access_control") in
  if negb (ValueBool isPrivate)
     && negb (Object_IsNull accessControl || Object_IsUnknown accessControl)
  then
    let d1 :=
      diag.AddAttributeError (planmodifier.Diagnostics resp)
        (path.Root "is_private") "Invalid Value"
        "is_private must be true when access_control is specified." in
    let d2 :=
      diag.AddAttributeError d1
        (path.Root "access_control") "Invalid Value"
        "access_control cannot be specified when is_private is false." in
    planmodifier.mkObjectResponse
      (planmodifier.RespPlanValue resp) d2 (planmodifier.RequiresReplace resp)
  else
    let resp1 :=
      if ValueBool isPrivate
         && (Object_IsUnknown accessControl || Object_IsNull accessControl)
      then
        let '(emptyList, listDiags) := ListValueFrom StringType [] in
        let d := diag.Append (planmodifier.Diagnostics resp) listDiags in
        let '(readPermissions, readDiags) :=
          ObjectValue permissionTypes
            {[ "group_ids" := VList emptyList; "user_ids" := VList emptyList ]} in
        let d := diag.Append d readDiags in
        let '(writePermissions, writeDiags) :=
          ObjectValue permissionTypes
            {[ "group_ids" := VList emptyList; "user_ids" := VList emptyList ]} in
        let d := diag.Append d writeDiags in
        let '(defaultAccessControl, diags) :=
          ObjectValue attributeTypes
            {[ "read" := VObject readPermissions;
               "write" := VObject writePermissions ]} in
        let d := diag.Append d diags in
        planmodifier.mkObjectResponse
          defaultAccessControl d (planmodifier.RequiresReplace resp)
      else resp in
    if negb (ValueBool isPrivate)
    then
      planmodifier.mkObjectResponse
        (ObjectNull attributeTypes)
        (planmodifier.Diagnostics resp1) (planmodifier.RequiresReplace resp1)
    else resp1.

(** The two attribute errors [PlanModifyObject] reports on a conflict. *)
Definition is_private_conflict : diag.Diagnostic :=
  diag.NewAttributeErrorDiagnostic (path.Root "is_private") "Invalid Value"
    "is_private must be true when access_control is specified.".

Definition access_control_conflict : diag.Diagnostic :=
  diag.NewAttributeErrorDiagnostic (path.Root "access_control") "Invalid Value"
    "access_control cannot be specified when is_private is false.".

(** The value the spec gives for a private model without access control:
    [{read: {group_ids: [], user_ids: []}, write: {group_ids: [],
    user_ids: []}}]. *)
Definition emptyPermissions : Object :=
  ObjectKnown permissionTypes
    {[ "group_ids" := VList (ListKnown StringType []);
       "user_ids" := VList (ListKnown StringType []) ]}.

Definition emptyAccessControl : Object :=
  ObjectKnown attributeTypes
    {[ "read" := VObject emptyPermissions;
       "write" := VObject emptyPermissions ]}.

End AccessControlDefaultModifier.

(* ===================================================================== *)
(** ** The handlers' effects: remote store, call log, panics *)
(* ===================================================================== *)

Module effects.

(** A call made on the models client, with the arguments it was given. *)
Inductive Call : Type :=
  | CallCreateModel (model : models.Model)
  | CallGetModel (id : string)
  | CallUpdateModel (id : string) (model : models.Model)
  | CallDeleteModel (id : string).

(** The world a handler runs in: the remote store and the calls made on the
    client so far, oldest first. *)
Record World (S : Type) : Type := mkWorld {
  store : S;
  calls : list Call;
}.

Arguments mkWorld {S}.
Arguments store {S}.
Arguments calls {S}.

(** A handler returns or panics (a nil pointer dereference). *)
Inductive Outcome (A : Type) : Type :=
  | Returned (a : A)
  | Panicked (msg : string).

Arguments Returned {A}.
Arguments Panicked {A}.

Definition M (S A : Type) : Type := World S -> Outcome A * World S.

#[global] Instance M_ret {S} : MRet (M S) :=
  fun A a w => (Returned a, w).

#[global] Instance M_bind {S} : MBind (M S) :=
  fun A B f m w =>
    match m w with
    | (Returned a, w') => f a w'
    | (Panicked msg, w') => (Panicked msg, w')
    end.

Definition panic {S A} (msg : string) : M S A :=
  fun w => (Panicked msg, w).

(** [*p]: dereferencing a nil pointer panics. *)
Definition deref {S A} (p : option A) : M S A :=
  match p with
  | Some a => mret a
  | None => panic "invalid memory address or nil pointer dereference"
  end.

Section calls.
Context {S : Type} (c : models.Client S).

(** A client call: run the operation on the store and log the call. *)
Definition call {A} (what : Call) (op : S -> A * S) : M S A :=
  fun w =>
    let '(res, s') := op (store w) in
    (Returned res, mkWorld s' (calls w ++ [what])).

Definition CreateModel (model : models.Model)
    : M S (option models.Model * option models.error) :=
  call (CallCreateModel model) (models.CreateModel c model).

Definition GetModel (id : string)
    : M S (option models.Model * option models.error) :=
  call (CallGetModel id) (models.GetModel c id).

Definition UpdateModel (id : string) (model : models.Model)
    : M S (option models.Model * option models.error) :=
  call (CallUpdateModel id model) (models.UpdateModel c id model).

Definition DeleteModel (id : string) : M S (option models.error) :=
  call (CallDeleteModel id) (models.DeleteModel c id).

End calls.

End effects.

(* ===================================================================== *)
(** ** resource, datasource: handler requests and responses *)
(* ===================================================================== *)

Module resource.

Record CreateRequest : Type := mkCreateRequest {
  CreateConfig : tfsdk.Config;
  CreatePlan : tfsdk.Plan;
}.

Record ReadRequest : Type := mkReadRequest {
  ReadState : tfsdk.State;
}.

Record UpdateRequest : Type := mkUpdateRequest {
  UpdateConfig : tfsdk.Config;
  UpdatePlan : tfsdk.Plan;
  UpdateState : tfsdk.State;
}.

Record DeleteRequest : Type := mkDeleteRequest {
  DeleteState : tfsdk.State;
}.

(** [CreateResponse], [ReadResponse], [UpdateResponse] and [DeleteResponse]
    all carry the state to store and the diagnostics. *)
Record Response : Type := mkResponse {
  State : tfsdk.State;
  Diagnostics : diag.Diagnostics;
}.

(** [resp.Diagnostics.Append(diags...)] *)
Definition Append (resp : Response) (diags : diag.Diagnostics) : Response :=
  mkResponse (State resp) (diag.Append (Diagnostics resp) diags).

(** [resp.Diagnostics.AddError(summary, detail)] *)
Definition AddError (resp : Response) (summary detail : string) : Response :=
  mkResponse (State resp) (diag.AddError (Diagnostics resp) summary detail).

(** [diags = resp.State.Set(ctx, model); resp.Diagnostics.Append(diags...)] *)
Definition SetState (resp : Response) (model : option models.Model)
    : Response :=
  let '(st, diags) := tfsdk.Set_ model in
  mkResponse st (diag.Append (Diagnostics resp) diags).

End resource.

Module datasource.

Record ReadRequest : Type := mkReadRequest {
  Config : tfsdk.Config;
}.

End datasource.

(* ===================================================================== *)
(** ** ModelResource: Create, Read, Update, Delete *)
(* ===================================================================== *)

Module ModelResource.

Import types effects.

Section handlers.
Context {S : Type} (r : models.Client S).

Definition Create (req : resource.CreateRequest) (resp : resource.Response)
    : M S resource.Response :=
  let '(plan, diags) := tfsdk.Get (resource.CreatePlan req) in
  let resp := resource.Append resp diags in
  if diag.HasError (resource.Diagnostics resp) then mret resp
  else
    '(model, err) ← CreateModel r plan;
    match err with
    | Some e => mret (resource.AddError resp "Error creating model" e)
    | None =>
        m ← deref model;
        (* Ensure the ID is set in the state *)
        if String_IsNull (models.ID m)
        then mret (resource.AddError resp "Error creating model"
                     "Model ID is null after creation")
        else mret (resource.SetState resp (Some m))
    end.

Definition Read (req : resource.ReadRequest) (resp : resource.Response)
    : M S resource.Response :=
  let '(state, diags) := tfsdk.Get (resource.ReadState req) in
  let resp := resource.Append resp diags in
  if diag.HasError (resource.Diagnostics resp) then mret resp
  else
    '(model, err) ← GetModel r (ValueString (models.ID state));
    match err with
    | Some e => mret (resource.AddError resp "Error reading model" e)
    | None =>
        m ← deref model;
        (* Ensure the ID is preserved *)
        let m :=
          if String_IsNull (models.ID m)
          then models.set_ID m (models.ID state) else m in
        mret (resource.SetState resp (Some m))
    end.

Definition Update (req : resource.UpdateRequest) (resp : resource.Response)
    : M S resource.Response :=
  let '(plan, diags) := tfsdk.Get (resource.UpdatePlan req) in
  let resp := resource.Append resp diags in
  if diag.HasError (resource.Diagnostics resp) then mret resp
  else
    let '(state, diags) := tfsdk.Get (resource.UpdateState req) in
    let resp := resource.Append resp diags in
    if diag.HasError (resource.Diagnostics resp) then mret resp
    else
      (* Ensure we use the existing ID for the update *)
      let plan := models.set_ID plan (models.ID state) in
      '(model, err) ← UpdateModel r (ValueString (models.ID state)) plan;
      match err with
      | Some e => mret (resource.AddError resp "Error updating model" e)
      | None =>
          m ← deref model;
          (* Ensure the ID is preserved *)
          let m :=
            if String_IsNull (models.ID m)
            then models.set_ID m (models.ID state) else m in
          mret (resource.SetState resp (Some m))
      end.

Definition Delete (req : resource.DeleteRequest) (resp : resource.Response)
    : M S resource.Response :=
  let '(state, diags) := tfsdk.Get (resource.DeleteState req) in
  let resp := resource.Append resp diags in
  if diag.HasError (resource.Diagnostics resp) then mret resp
  else
    err ← DeleteModel r (ValueString (models.ID state));
    match err with
    | Some e => mret (resource.AddError resp "Error deleting model" e)
    | None => mret resp
    end.

End handlers.

End ModelResource.

(* ===================================================================== *)
(** ** ModelDataSource: Read *)
(* ===================================================================== *)

Module ModelDataSource.

Import types effects.

Section handlers.
Context {S : Type} (d : models.Client S).

(** The state is set from [foundModel] before [foundModel] is compared with
    nil. *)
Definition Read (req : datasource.ReadRequest) (resp : resource.Response)
    : M S resource.Response :=
  let '(config, diags) := tfsdk.Get (datasource.Config req) in
  let resp := resource.Append resp diags in
  if diag.HasError (resource.Diagnostics resp) then mret resp
  else
    (* Get specific model *)
    '(foundModel, err) ← GetModel d (ValueString (models.ID config));
    match err with
    | Some e => mret (resource.AddError resp "Error reading model" e)
    | None =>
        let resp := resource.SetState resp foundModel in
        match foundModel with
        | None =>
            mret (resource.AddError resp "Error reading model"
                    ("No model found with name: "
                       +:+ ValueString (models.ID config)))
        | Some _ => mret resp
        end
    end.

End handlers.

End ModelDataSource.

(* ===================================================================== *)
(** ** stringvalidator, schema: attribute declarations and validators *)
(* ===================================================================== *)

Module stringvalidator.

Import types.

(** [validator.String], as far as the schemas use it. *)
Inductive Validator : Type :=
  | OneOf (values : list string).

(** What [OneOf(values...)] rejects: a known string that is none of the
    values.  Null and unknown are never rejected. *)
Definition rejects (values : list string) (configValue : String) : bool :=
  match configValue with
  | StringNull | StringUnknown => false
  | StringValue value => negb (bool_decide (value ∈ values))
  end.

(** The diagnostic of a rejected value.  Its wording belongs to the
    validators library; only its severity and path matter below. *)
Definition InvalidAttributeValueMatchDiagnostic
    (p : path.Path) (values : list string) (value : string)
    : diag.Diagnostic :=
  diag.NewAttributeErrorDiagnostic p "Invalid Attribute Value Match"
    ("value must be one of: ["
       +:+ String.concat " " values +:+ "], got: " +:+ value).

(** [v.ValidateString(ctx, req, resp)], on the diagnostics so far. *)
Definition ValidateString
    (v : Validator) (p : path.Path) (configValue : String)
    (diags : diag.Diagnostics) : diag.Diagnostics :=
  match v with
  | OneOf values =>
      if rejects values configValue
      then diag.Append diags
             [InvalidAttributeValueMatchDiagnostic p values
                (ValueString configValue)]
      else diags
  end.

End stringvalidator.

Module schema.

Import types.

(** How an attribute is configured. *)
Record Mode : Type := mkMode {
  Required : bool;
  Optional : bool;
  Computed : bool;
}.

Definition required : Mode := mkMode true false false.
Definition optional : Mode := mkMode false true false.
Definition computed : Mode := mkMode false false true.
Definition optional_computed : Mode := mkMode false true true.

(** [schema.Attribute]: the kind of the attribute with its mode, its
    validators and its nested attributes.  A Go map literal of attributes is
    the list of its entries as written (the names are distinct).
    Descriptions, defaults and plan modifiers are not read by validation and
    are left out. *)
Inductive Attribute : Type :=
  | StringAttribute (mode : Mode) (Validators : list stringvalidator.Validator)
  | BoolAttribute (mode : Mode)
  | Int64Attribute (mode : Mode)
  | Float64Attribute (mode : Mode)
  | ListAttribute (mode : Mode) (ElementType : AttrType)
  | SetAttribute (mode : Mode) (ElementType : AttrType)
  | SingleNestedAttribute (mode : Mode) (Attributes : list (string * Attribute))
  | ListNestedAttribute (mode : Mode) (Attributes : list (string * Attribute)).

Record Schema : Type := mkSchema {
  Attributes : list (string * Attribute);
}.

(** The mode of an attribute. *)
Definition Attribute_mode (a : Attribute) : Mode :=
  match a with
  | StringAttribute mode _ | BoolAttribute mode | Int64Attribute mode
  | Float64Attribute mode | ListAttribute mode _ | SetAttribute mode _
  | SingleNestedAttribute mode _ | ListNestedAttribute mode _ => mode
  end.

(** [v.IsNull()] of a configured value. *)
Definition Value_IsNull (v : Value) : bool :=
  match v with
  | VString StringNull | VBool BoolNull | VInt64 Int64Null
  | VFloat64 Float64Null | VList (ListNull _) | VSet (ListNull _)
  | VObject (ObjectNull _) => true
  | _ => false
  end.

(** The value a configuration holds at a path is null when the configuration
    holds nothing there. *)
Definition IsNull (configValue : option Value) : bool :=
  match configValue with
  | Some v => Value_IsNull v
  | None => true
  end.

(** The diagnostics of the checks made on every attribute before its
    validators run.  Their wording is the framework's; only summary,
    severity and path matter below. *)
Definition InvalidDefinitionDiagnostic (p : path.Path) : diag.Diagnostic :=
  diag.NewAttributeErrorDiagnostic p "Invalid Attribute Definition"
    "Attribute missing Required, Optional, or Computed definition.".

Definition ReadOnlyDiagnostic (p : path.Path) : diag.Diagnostic :=
  diag.NewAttributeErrorDiagnostic p
    "Invalid Configuration for Read-Only Attribute"
    "Cannot set value for this attribute as the provider has marked it as read-only.".

Definition MissingRequiredDiagnostic (p : path.Path) : diag.Diagnostic :=
  diag.NewAttributeErrorDiagnostic p
    "Missing Configuration for Required Attribute"
    "Must set a configuration value for this attribute as the provider has marked it as required.".

(** An attribute that is neither required nor optional nor computed. *)
Definition undefined_mode (mode : Mode) : bool :=
  negb (Required mode) && negb (Optional mode) && negb (Computed mode).

(** The checks of the mode against the configured value: a computed
    attribute that is not optional must not be configured, a required one
    must be. *)
Definition ModeValidate
    (mode : Mode) (p : path.Path) (configValue : option Value)
    (diags : diag.Diagnostics) : diag.Diagnostics :=
  let diags :=
    if Computed mode && negb (Optional mode) && negb (IsNull configValue)
    then diag.Append diags [ReadOnlyDiagnostic p]
    else diags in
  if Required mode && IsNull configValue
  then diag.Append diags [MissingRequiredDiagnostic p]
  else diags.

(** Validation of one attribute against its configured value: the checks of
    its mode, then its validators, then its nested attributes when the value
    is a known object (or a known list of objects); null and unknown values
    are not descended into.  The diagnostics are accumulated on those found
    so far. *)
Fixpoint AttributeValidate
    (a : Attribute) (p : path.Path) (configValue : option Value)
    (diags : diag.Diagnostics) {struct a} : diag.Diagnostics :=
  if undefined_mode (Attribute_mode a)
  then diag.Append diags [InvalidDefinitionDiagnostic p]
  else
    let diags := ModeValidate (Attribute_mode a) p configValue diags in
    match a with
    | StringAttribute _ validators =>
        match configValue with
        | Some (VString s) =>
            fold_left (fun ds v => stringvalidator.ValidateString v p s ds)
                      validators diags
        | _ => diags
        end
    | SingleNestedAttribute _ attrs =>
        match configValue with
        | Some (VObject (ObjectKnown _ vals)) =>
            (fix nested (l : list (string * Attribute))
                 (ds : diag.Diagnostics) : diag.Diagnostics :=
               match l with
               | [] => ds
               | (name, a') :: rest =>
                   nested rest
                     (AttributeValidate a' (path.AtName p name)
                        (vals !! name) ds)
               end) attrs diags
        | _ => diags
        end
    | ListNestedAttribute _ attrs =>
        match configValue with
        | Some (VList (ListKnown _ elems)) =>
            (fix elements (es : list Value) (i : nat)
                 (ds : diag.Diagnostics) : diag.Diagnostics :=
               match es with
               | [] => ds
               | e :: es' =>
                   elements es' (Datatypes.S i)
                     match e with
                     | VObject (ObjectKnown _ vals) =>
                         (fix nested (l : list (string * Attribute))
                              (ds : diag.Diagnostics) : diag.Diagnostics :=
                            match l with
                            | [] => ds
                            | (name, a') :: rest =>
                                nested rest
                                  (AttributeValidate a'
                                     (path.AtName (path.AtListIndex p i) name)
                                     (vals !! name) ds)
                            end) attrs ds
                     | _ => ds
                     end
               end) elems 0 diags
        | _ => diags
        end
    | _ => diags
    end.

(** Validation of the attributes of an object whose values are given by
    [vals]. *)
Fixpoint AttributesValidate
    (attrs : list (string * Attribute)) (p : path.Path)
    (vals : string -> option Value) (diags : diag.Diagnostics)
    : diag.Diagnostics :=
  match attrs with
  | [] => diags
  | (name, a) :: rest =>
      AttributesValidate rest p vals
        (AttributeValidate a (path.AtName p name) (vals name) diags)
  end.

(** Validation of the elements of a list of nested objects, from index
    [i] on. *)
Fixpoint ElementsValidate
    (attrs : list (string * Attribute)) (p : path.Path)
    (es : list Value) (i : nat) (diags : diag.Diagnostics)
    : diag.Diagnostics :=
  match es with
  | [] => diags
  | e :: es' =>
      ElementsValidate attrs p es' (Datatypes.S i)
        match e with
        | VObject (ObjectKnown _ vals) =>
            AttributesValidate attrs (path.AtListIndex p i)
              (fun name => vals !! name) diags
        | _ => diags
        end
  end.

(** Validation of a whole configuration; a null configuration holds null at
    every path. *)
Definition ValidateConfig (s : Schema) (config : tfsdk.Config)
    : diag.Diagnostics :=
  match config with
  | tfsdk.Null => AttributesValidate (Attributes s) [] (fun _ => None) []
  | tfsdk.Known m => AttributesValidate (Attributes s) [] (models.Attribute m) []
  end.

End schema.

(* ===================================================================== *)
(** ** The two schemas *)
(* ===================================================================== *)

Module ModelResourceSchema.

Import types schema.

Definition params : list (string * Attribute) :=
  [ ("system", StringAttribute optional []);
    ("stream_response", BoolAttribute optional);
    ("temperature", Float64Attribute optional);
    ("reasoning_effort",
       StringAttribute optional
         [stringvalidator.OneOf ["low"; "medium"; "high"]]);
    ("top_p", Float64Attribute optional);
    ("top_k", Int64Attribute optional);
    ("min_p", Float64Attribute optional);
    ("max_tokens", Int64Attribute optional);
    ("seed", Int64Attribute optional);
    ("frequency_penalty", Int64Attribute optional);
    ("repeat_last_n", Int64Attribute optional);
    ("num_ctx", Int64Attribute optional);
    ("num_batch", Int64Attribute optional);
    ("num_keep", Int64Attribute optional) ].

Definition capabilities : list (string * Attribute) :=
  [ ("vision", BoolAttribute optional);
    ("usage", BoolAttribute optional);
    ("citations", BoolAttribute optional) ].

Definition meta : list (string * Attribute) :=
  [ ("profile_image_url", StringAttribute optional_computed []);
    ("description", StringAttribute optional []);
    ("capabilities", SingleNestedAttribute optional capabilities);
    ("tags", ListNestedAttribute optional [("name", StringAttribute required [])]);
    ("filter_ids", SetAttribute optional StringType) ].

Definition permissions : list (string * Attribute) :=
  [ ("group_ids", ListAttribute optional StringType);
    ("user_ids", ListAttribute optional StringType) ].

Definition access_control : list (string * Attribute) :=
  [ ("read", SingleNestedAttribute optional permissions);
    ("write", SingleNestedAttribute optional permissions) ].

(** [ModelResource.Schema] *)
Definition Schema : schema.Schema :=
  mkSchema
    [ ("id", StringAttribute required []);
      ("user_id", StringAttribute computed []);
      ("base_model_id", StringAttribute required []);
      ("name", StringAttribute required []);
      ("params", SingleNestedAttribute optional_computed params);
      ("meta", SingleNestedAttribute optional meta);
      ("access_control", SingleNestedAttribute optional_computed access_control);
      ("is_active", BoolAttribute optional_computed);
      ("created_at", Int64Attribute computed);
      ("updated_at", Int64Attribute computed);
      ("is_private", BoolAttribute optional_computed) ].

End ModelResourceSchema.

Module ModelDataSourceSchema.

Import types schema.

Definition params : list (string * Attribute) :=
  [ ("system", StringAttribute computed []);
    ("stream_response", BoolAttribute computed);
    ("temperature", Float64Attribute computed);
    ("reasoning_effort", StringAttribute computed []);
    ("top_p", Float64Attribute computed);
    ("top_k", Int64Attribute computed);
    ("min_p", Float64Attribute computed);
    ("max_tokens", Int64Attribute computed);
    ("seed", Int64Attribute computed);
    ("frequency_penalty", Int64Attribute computed);
    ("repeat_last_n", Int64Attribute computed);
    ("num_ctx", Int64Attribute computed);
    ("num_batch", Int64Attribute computed);
    ("num_keep", Int64Attribute computed);
    ("function_calling",
       StringAttribute computed [stringvalidator.OneOf ["native"]]) ].

Definition capabilities : list (string * Attribute) :=
  [ ("vision", BoolAttribute computed);
    ("usage", BoolAttribute computed);
    ("citations", BoolAttribute computed) ].

Definition meta : list (string * Attribute) :=
  [ ("profile_image_url", StringAttribute computed []);
    ("description", StringAttribute computed []);
    ("capabilities", SingleNestedAttribute computed capabilities);
    ("tags", ListNestedAttribute computed [("name", StringAttribute computed [])]);
    ("filter_ids", ListAttribute computed StringType) ].

Definition permissions : list (string * Attribute) :=
  [ ("group_ids", ListAttribute computed StringType);
    ("user_ids", ListAttribute computed StringType) ].

Definition access_control : list (string * Attribute) :=
  [ ("read", SingleNestedAttribute computed permissions);
    ("write", SingleNestedAttribute computed permissions) ].

(** [ModelDataSource.Schema] *)
Definition Schema : schema.Schema :=
  mkSchema
    [ ("id", StringAttribute required []);
      ("user_id", StringAttribute computed []);
      ("base_model_id", StringAttribute computed []);
      ("name", StringAttribute computed []);
      ("params", SingleNestedAttribute computed params);
      ("meta", SingleNestedAttribute computed meta);
      ("access_control", SingleNestedAttribute computed access_control);
      ("is_active", BoolAttribute computed);
      ("created_at", Int64Attribute computed);
      ("updated_at", Int64Attribute computed);
      ("is_private", BoolAttribute computed) ].

End ModelDataSourceSchema.

(* ===================================================================== *)
(** ** The order of the stages of one reconciliation *)
(* ===================================================================== *)

Module reconcile.

Import types effects.



(** The default resolution of a plan: [AccessControlDefaultModifier] on the
    plan's [access_control], the only plan modifier of the schema.  The
    diagnostics, and the plan with the resolved value. *)
Definition resolve (config : tfsdk.Config) (plan : models.Model)
    (state : tfsdk.State) : planmodifier.ObjectResponse :=
  let req :=
    planmodifier.mkObjectRequest
      (path.Root "access_control") config
      (tfsdk.GetAttribute_Object config (path.Root "access_control"))
      (tfsdk.Known plan) (models.AccessControl plan) state
      (tfsdk.GetAttribute_Object state (path.Root "access_control")) in
  AccessControlDefaultModifier.PlanModifyObject req (planmodifier.initial req).

Section stages.
Context {S : Type} (c : models.Client S).

(** Modelled from the spec: the sequencing of the stages is done by the
    plugin framework, which is not among the sources.  Section 2 of the spec
    gives the data flow: desired state, Schema Validator, Default Resolver,
    Reconciler, Remote Resource Store; section 7 says a validation error
    never triggers a remote call.  A stage that reports an error ends the
    call. *)
Definition Create (config : tfsdk.Config) (plan : models.Model)
    : M S resource.Response :=
  let vdiags := schema.ValidateConfig ModelResourceSchema.Schema config in
  if diag.HasError vdiags then mret (resource.mkResponse tfsdk.Null vdiags)
  else
    let presp := resolve config plan tfsdk.Null in
    if diag.HasError (planmodifier.Diagnostics presp)
    then mret (resource.mkResponse tfsdk.Null (planmodifier.Diagnostics presp))
    else
      ModelResource.Create c
        (resource.mkCreateRequest config
           (tfsdk.Known
              (models.set_AccessControl plan (planmodifier.RespPlanValue presp))))
        (resource.mkResponse tfsdk.Null
           (diag.Append vdiags (planmodifier.Diagnostics presp))).


End stages.

End reconcile.

(* ===================================================================== *)
(** ** Configure: the provider data of the resource and the data source *)
(* ===================================================================== *)

Module configure.

(** Go's [interface{}] as the two [Configure] methods inspect it by type
    assertion: the nil interface, a [map[string]interface{}], a
    [*models.Client] (the pointer may be nil), or a value of another type,
    given by the name [%T] prints for it.  A key a map does not hold reads as
    the nil interface. *)
Inductive Any (S : Type) : Type :=
  | Nil
  | MapStringAny (entries : gmap string (Any S))
  | ModelsClient (client : option (models.Client S))
  | Other (goType : string).

Arguments Nil {S}.
Arguments MapStringAny {S}.
Arguments ModelsClient {S}.
Arguments Other {S}.

(** [fmt.Sprintf("%T", v)] *)
Definition TypeName {S} (v : Any S) : string :=
  match v with
  | Nil => "<nil>"
  | MapStringAny _ => "map[string]interface {}"
  | ModelsClient _ => "*models.Client"
  | Other goType => goType
  end.

(** [clients[key]] *)
Definition index {S} (clients : gmap string (Any S)) (key : string) : Any S :=
  default Nil (clients !! key).

(** [(r *ModelResource) Configure]: the field [r.client] and the diagnostics
    of the response afterwards, from what they were and [req.ProviderData]. *)
Definition ModelResource_Configure {S}
    (client : option (models.Client S)) (ProviderData : Any S)
    (diags : diag.Diagnostics)
    : option (models.Client S) * diag.Diagnostics :=
  match ProviderData with
  | Nil => (client, diags)
  | MapStringAny clients =>
      match index clients "models" with
      | ModelsClient c => (c, diags)
      | other =>
          (client,
           diag.AddError diags "Unexpected Resource Configure Type"
             ("Expected *models.Client, got: " +:+ TypeName other
                +:+ ". Please report this issue to the provider developers."))
      end
  | other =>
      (client,
       diag.AddError diags "Unexpected Resource Configure Type"
         ("Expected map[string]interface{}, got: " +:+ TypeName other
            +:+ ". Please report this issue to the provider developers."))
  end.

(** [(d *ModelDataSource) Configure] *)
Definition ModelDataSource_Configure {S}
    (client : option (models.Client S)) (ProviderData : Any S)
    (diags : diag.Diagnostics)
    : option (models.Client S) * diag.Diagnostics :=
  match ProviderData with
  | Nil => (client, diags)
  | MapStringAny clients =>
      match index clients "models" with
      | ModelsClient c => (c, diags)
      | other =>
          (client,
           diag.AddError diags "Unexpected Data Source Configure Type"
             ("Expected *models.Client, got: " +:+ TypeName other
                +:+ ". Please report this issue to the provider developers."))
      end
  | other =>
      (client,
       diag.AddError diags "Unexpected Data Source Configure Type"
         ("Expected map[string]interface{}, got: " +:+ TypeName other
            +:+ ". Please report this issue to the provider developers."))
  end.

(** [Metadata] of the resource and of the data source: [resp.TypeName]. *)
Definition ModelResource_Metadata (ProviderTypeName : string) : string :=
  ProviderTypeName +:+ "_model".

Definition ModelDataSource_Metadata (ProviderTypeName : string) : string :=
  ProviderTypeName +:+ "_model".

End configure.

(* ===================================================================== *)
(** ** client: the OpenWebUI client *)
(* ===================================================================== *)

Module client.

Section New.

(** The base client and the clients of the knowledge, groups and models
    packages, with their constructors, are declared outside the sources;
    they are taken as they come. *)
Context {BaseClient KnowledgeClient GroupsClient ModelsClient : Type}.
Context (NewBaseClient : string -> string -> BaseClient).
Context (knowledge_NewClient : string -> string -> KnowledgeClient).
Context (groups_NewClient : string -> string -> GroupsClient).
Context (models_NewClient : string -> string -> ModelsClient).

Record OpenWebUIClient : Type := mkOpenWebUIClient {
  Base : BaseClient;
  Knowledge : KnowledgeClient;
  Groups : GroupsClient;
  Models : ModelsClient;
}.

(** [New(endpoint, token)]: the Go result pair (pointer, error). *)
Definition New (endpoint token : string)
    : option OpenWebUIClient * option models.error :=
  if decide (endpoint = "") then (None, Some "endpoint is required")
  else if decide (token = "") then (None, Some "token is required")
  else
    let base := NewBaseClient endpoint token in
    (Some (mkOpenWebUIClient base
             (knowledge_NewClient endpoint token)
             (groups_NewClient endpoint token)
             (models_NewClient endpoint token)),
     None).

End New.

End client.

(* ===================================================================== *)
(** ** users: from the API user to the Terraform user *)
(* ===================================================================== *)

Module users.

(** [APIUser]; [Interface] stands for Go's [interface{}] in the values of
    [Info], a nil pointer [APIKey] and a nil map [Info] are [None], an
    [int64] is its value in [Z]. *)
Module APIUser.
Record t (Interface : Type) : Type := mk {
  ID : string;
  Name : string;
  Email : string;
  Role : string;
  ProfileImageURL : string;
  LastActiveAt : Z;
  UpdatedAt : Z;
  CreatedAt : Z;
  APIKey : option string;
  Info : option (gmap string Interface);
  OAuthSub : string;
}.
Arguments mk {Interface}.
Arguments ID {Interface}.
Arguments Name {Interface}.
Arguments Email {Interface}.
Arguments Role {Interface}.
Arguments ProfileImageURL {Interface}.
Arguments LastActiveAt {Interface}.
Arguments UpdatedAt {Interface}.
Arguments CreatedAt {Interface}.
Arguments APIKey {Interface}.
Arguments Info {Interface}.
Arguments OAuthSub {Interface}.
End APIUser.

(** [User]; [Map] stands for the framework's [types.Map]. *)
Module User.
Record t (Map : Type) : Type := mk {
  ID : types.String;
  Name : types.String;
  Email : types.String;
  Role : types.String;
  ProfileImageURL : types.String;
  LastActiveAt : types.Int64;
  UpdatedAt : types.Int64;
  CreatedAt : types.Int64;
  APIKey : types.String;
  Info : Map;
  OAuthSub : types.String;
}.
Arguments mk {Map}.
Arguments ID {Map}.
Arguments Name {Map}.
Arguments Email {Map}.
Arguments Role {Map}.
Arguments ProfileImageURL {Map}.
Arguments LastActiveAt {Map}.
Arguments UpdatedAt {Map}.
Arguments CreatedAt {Map}.
Arguments APIKey {Map}.
Arguments Info {Map}.
Arguments OAuthSub {Map}.
End User.

Section APIToUser.

(** The framework's [types.Map], its zero value and
    [types.MapValueFrom(nil, elementType, elements)] are taken as they
    come; the diagnostics of the conversion are dropped by the caller. *)
Context {Interface Map : Type}.
Context (zeroMap : Map).
Context (MapValueFrom :
           types.AttrType -> gmap string Interface -> Map * diag.Diagnostics).

(** [APIToUser(apiUser)]; a nil [apiUser] is dereferenced by the first
    field read. *)
Definition APIToUser (apiUser : option (APIUser.t Interface))
    : effects.Outcome (User.t Map) :=
  match apiUser with
  | None =>
      effects.Panicked "invalid memory address or nil pointer dereference"
  | Some u =>
      effects.Returned
        (User.mk
           (types.StringValue (APIUser.ID u))
           (types.StringValue (APIUser.Name u))
           (types.StringValue (APIUser.Email u))
           (types.StringValue (APIUser.Role u))
           (types.StringValue (APIUser.ProfileImageURL u))
           (types.Int64Value (APIUser.LastActiveAt u))
           (types.Int64Value (APIUser.UpdatedAt u))
           (types.Int64Value (APIUser.CreatedAt u))
           (match APIUser.APIKey u with
            | Some key => types.StringValue key
            | None => types.StringNull
            end)
           (match APIUser.Info u with
            | Some info => (MapValueFrom types.StringType info).1
            | None => zeroMap
            end)
           (types.StringValue (APIUser.OAuthSub u)))
  end.

End APIToUser.

End users.

(* ===================================================================== *)
(** ** The types of the schema, the default of [params], ImportState *)
(* ===================================================================== *)

Module schematypes.

Import types schema.

(** [a.GetType()]: the type of the values of an attribute. *)
Fixpoint Attribute_Type (a : Attribute) : AttrType :=
  match a with
  | StringAttribute _ _ => StringType
  | BoolAttribute _ => BoolType
  | Int64Attribute _ => Int64Type
  | Float64Attribute _ => Float64Type
  | ListAttribute _ e => ListType e
  | SetAttribute _ e => SetType e
  | SingleNestedAttribute _ attrs =>
      ObjectType
        ((fix nested (l : list (string * Attribute)) : gmap string AttrType :=
            match l with
            | [] => ∅
            | (name, a') :: rest => <[name := Attribute_Type a']> (nested rest)
            end) attrs)
  | ListNestedAttribute _ attrs =>
      ListType
        (ObjectType
           ((fix nested (l : list (string * Attribute)) : gmap string AttrType :=
               match l with
               | [] => ∅
               | (name, a') :: rest => <[name := Attribute_Type a']> (nested rest)
               end) attrs))
  end.

(** The attribute types of an object with the given attributes. *)
Definition AttributeTypes (attrs : list (string * Attribute))
    : gmap string AttrType :=
  list_to_map (map (fun na => (na.1, Attribute_Type na.2)) attrs).

(** The attribute types and values of the static default of [params] in
    [ModelResource.Schema], which is
    [types.ObjectValueMust(paramsDefaultTypes, paramsDefaultValues)]. *)
Definition paramsDefaultTypes : gmap string AttrType :=
  list_to_map
    [ ("system", StringType);
      ("stream_response", BoolType);
      ("temperature", Float64Type);
      ("reasoning_effort", StringType);
      ("top_p", Float64Type);
      ("top_k", Int64Type);
      ("min_p", Float64Type);
      ("max_tokens", Int64Type);
      ("seed", Int64Type);
      ("frequency_penalty", Int64Type);
      ("repeat_last_n", Int64Type);
      ("num_ctx", Int64Type);
      ("num_batch", Int64Type);
      ("num_keep", Int64Type) ].

Definition paramsDefaultValues : gmap string Value :=
  list_to_map
    [ ("system", VString StringNull);
      ("stream_response", VBool BoolNull);
      ("temperature", VFloat64 Float64Null);
      ("reasoning_effort", VString StringNull);
      ("top_p", VFloat64 Float64Null);
      ("top_k", VInt64 Int64Null);
      ("min_p", VFloat64 Float64Null);
      ("max_tokens", VInt64 Int64Null);
      ("seed", VInt64 Int64Null);
      ("frequency_penalty", VInt64 Int64Null);
      ("repeat_last_n", VInt64 Int64Null);
      ("num_ctx", VInt64 Int64Null);
      ("num_batch", VInt64 Int64Null);
      ("num_keep", VInt64 Int64Null) ].

(** The state of the model resource with every attribute null, each null
    of the type the schema declares. *)
Definition null_model : models.Model :=
  models.mkModel StringNull StringNull StringNull StringNull
    (ObjectNull (AttributeTypes ModelResourceSchema.params))
    (ObjectNull (AttributeTypes ModelResourceSchema.meta))
    (ObjectNull (AttributeTypes ModelResourceSchema.access_control))
    BoolNull Int64Null Int64Null BoolNull.

(** [state.SetAttribute(ctx, path.Root("id"), id)] for a Go string: the
    attribute [id] becomes the known string; in a null state every other
    attribute is then null. *)
Definition SetAttribute_id (state : tfsdk.State) (id : string)
    : tfsdk.State * diag.Diagnostics :=
  match state with
  | tfsdk.Known m => (tfsdk.Known (models.set_ID m (StringValue id)), [])
  | tfsdk.Null =>
      (tfsdk.Known (models.set_ID null_model (StringValue id)), [])
  end.

(** [resource.ImportStateRequest] *)
Record ImportStateRequest : Type := mkImportStateRequest {
  ID : string;
}.

(** [(r *ModelResource) ImportState], which is
    [resource.ImportStatePassthroughID(ctx, path.Root("id"), req, resp)]:
    the id of the request is set at the path. *)
Definition ImportState (req : ImportStateRequest) (resp : resource.Response)
    : resource.Response :=
  let '(st, diags) := SetAttribute_id (resource.State resp) (ID req) in
  resource.mkResponse st (diag.Append (resource.Diagnostics resp) diags).

End schematypes.

(* ===================================================================== *)
(** ** Concrete clients, models and requests *)
(* ===================================================================== *)

Module examples.

Import types.

(** A remote store in memory: the models by id. *)
Definition Store : Type := gmap string models.Model.

Definition not_found : models.error := "model not found".

(** A well-behaved client over the store in memory. *)
Definition memory : models.Client Store :=
  models.mkClient Store
    (fun model s =>
       ((Some model, None), <[ValueString (models.ID model) := model]> s))
    (fun id s =>
       (match s !! id with
        | Some m => (Some m, None)
        | None => (None, Some not_found)
        end, s))
    (fun id model s =>
       match s !! id with
       | Some _ => ((Some model, None), <[id := model]> s)
       | None => ((None, Some not_found), s)
       end)
    (fun id s =>
       (match s !! id with Some _ => None | None => Some not_found end,
        delete id s)).

(** A client that changes every resource it answers with by [f]. *)
Definition answering {S} (f : models.Model -> models.Model)
    (c : models.Client S) : models.Client S :=
  let answer (r : (option models.Model * option models.error) * S) :=
    let '((model, err), s) := r in ((f <$> model, err), s) in
  models.mkClient S
    (fun model s => answer (models.CreateModel c model s))
    (fun id s => answer (models.GetModel c id s))
    (fun id model s => answer (models.UpdateModel c id model s))
    (models.DeleteModel c).

(** The remote leaves the id out of its answers. *)
Definition omits_id : models.Client Store :=
  answering (fun m => models.set_ID m StringNull) memory.

(** The remote answers with the empty string as id. *)
Definition blank_id : models.Client Store :=
  answering (fun m => models.set_ID m (StringValue "")) memory.

(** The remote accepts a creation and does not find the resource after. *)
Definition forgetful : models.Client Store :=
  models.mkClient Store
    (models.CreateModel memory)
    (fun _ s => ((None, Some not_found), s))
    (fun _ _ s => ((None, Some not_found), s))
    (models.DeleteModel memory).

(** The remote answers a get with neither a resource nor an error. *)
Definition silent : models.Client Store :=
  models.mkClient Store
    (models.CreateModel memory)
    (fun _ s => ((None, None), s))
    (models.UpdateModel memory)
    (models.DeleteModel memory).

(** A model as the plan of a declared resource holds it: what the remote
    computes is unknown. *)
Definition declared (id : String) (params : Object) (is_private : Bool)
    (access_control : Object) : models.Model :=
  models.mkModel id StringUnknown (StringValue "llama3:8b")
    (StringValue "Helper") params (ObjectNull ∅) access_control
    (BoolValue false) Int64Unknown Int64Unknown is_private.

Definition no_params : Object := ObjectNull ∅.


Definition m1 : models.Model :=
  declared (StringValue "m-1") no_params (BoolValue false)
           (ObjectNull AccessControlDefaultModifier.attributeTypes).

(** A model the store holds under "m-1", as a previous call stored it. *)
Definition stored : tfsdk.State := tfsdk.Known m1.

Definition holding_m1 : effects.World Store :=
  effects.mkWorld ({[ "m-1" := m1 ]} : Store) [].

Definition empty_world : effects.World Store :=
  effects.mkWorld (∅ : Store) [].

Definition fresh (st : tfsdk.State) : resource.Response :=
  resource.mkResponse st [].

(** A request to the plan modifier for the plan [m], with [old] stored. *)
Definition modify (m : models.Model) (old : tfsdk.State)
    : planmodifier.ObjectRequest :=
  planmodifier.mkObjectRequest
    (path.Root "access_control") (tfsdk.Known m) (models.AccessControl m)
    (tfsdk.Known m) (models.AccessControl m) old
    (tfsdk.GetAttribute_Object old (path.Root "access_control")).

(** A stored private model with somebody granted read access. *)
Definition shared_with_ada : Object :=
  ObjectKnown AccessControlDefaultModifier.attributeTypes
    {[ "read" :=
         VObject (ObjectKnown AccessControlDefaultModifier.permissionTypes
           {[ "group_ids" := VList (ListKnown StringType []);
              "user_ids" :=
                VList (ListKnown StringType [VString (StringValue "ada")]) ]});
       "write" := VObject AccessControlDefaultModifier.emptyPermissions ]}.

(** A configuration of the resource: what the schema marks as read-only
    is left null. *)
Definition configured (id : String) (params : Object) (is_private : Bool)
    (access_control : Object) : models.Model :=
  models.mkModel id StringNull (StringValue "llama3:8b")
    (StringValue "Helper") params (ObjectNull ∅) access_control
    BoolNull Int64Null Int64Null is_private.


End examples.

(* ===================================================================== *)
(** ** Two properties as the specification words them *)
(* ===================================================================== *)

Module stated.

Import types effects.

(** "Given a non-empty stored id and a remote response whose id is the empty
    string, the merged result of Read has the stored id." *)
Definition Read_keeps_identity {S} (c : models.Client S)
    (state : models.Model) (w : World S) : Prop :=
  forall remote s',
    ValueString (models.ID state) <> "" ->
    models.GetModel c (ValueString (models.ID state)) (store w)
      = ((Some remote, None), s') ->
    ValueString (models.ID remote) = "" ->
    exists resp' w' merged,
      ModelResource.Read c (resource.mkReadRequest (tfsdk.Known state))
        (resource.mkResponse (tfsdk.Known state) []) w = (Returned resp', w')
      /\ resource.State resp' = tfsdk.Known merged
      /\ models.ID merged = models.ID state.

(** The same for Update, under any plan. *)
Definition Update_keeps_identity {S} (c : models.Client S)
    (plan state : models.Model) (w : World S) : Prop :=
  forall remote s',
    ValueString (models.ID state) <> "" ->
    models.UpdateModel c (ValueString (models.ID state))
      (models.set_ID plan (models.ID state)) (store w)
      = ((Some remote, None), s') ->
    ValueString (models.ID remote) = "" ->
    exists resp' w' merged,
      ModelResource.Update c
        (resource.mkUpdateRequest (tfsdk.Known plan) (tfsdk.Known plan)
           (tfsdk.Known state))
        (resource.mkResponse (tfsdk.Known state) []) w = (Returned resp', w')
      /\ resource.State resp' = tfsdk.Known merged
      /\ models.ID merged = models.ID state.

(** "If Create(effective) succeeds and returns a resource with id "m-1",
    then an immediately following Read("m-1") against the unchanged store
    succeeds and returns a resource whose id is "m-1"." *)
Definition Create_then_Read {S} (c : models.Client S)
    (effective : models.Model) (w : World S) : Prop :=
  forall resp1 w1 created,
    ModelResource.Create c
      (resource.mkCreateRequest (tfsdk.Known effective) (tfsdk.Known effective))
      (resource.mkResponse tfsdk.Null []) w = (Returned resp1, w1) ->
    diag.HasError (resource.Diagnostics resp1) = false ->
    resource.State resp1 = tfsdk.Known created ->
    models.ID created = StringValue "m-1" ->
    exists resp2 w2 read,
      ModelResource.Read c (resource.mkReadRequest (resource.State resp1))
        (resource.mkResponse (resource.State resp1) []) w1
        = (Returned resp2, w2)
      /\ diag.HasError (resource.Diagnostics resp2) = false
      /\ resource.State resp2 = tfsdk.Known read
      /\ models.ID read = StringValue "m-1".



End stated.

(* ===================================================================== *)
(** ** The remote store as the specification assumes it *)
(* ===================================================================== *)

Module remote.


End remote.

(* ===================================================================== *)
(** ** Lemmas on diagnostics *)
(* ===================================================================== *)

Lemma Append_nil (diags : diag.Diagnostics) : diag.Append diags [] = diags.
Proof. reflexivity. Qed.

Lemma Append_one (diags : diag.Diagnostics) (d : diag.Diagnostic) :
  diag.Append diags [d] = if diag.Contains diags d then diags else diags ++ [d].
Proof. reflexivity. Qed.

Lemma elem_of_Append_l (diags new : diag.Diagnostics) (d : diag.Diagnostic) :
  d ∈ diags -> d ∈ diag.Append diags new.
Proof.
  revert diags. induction new as [|n new IH]; intros diags Hd; simpl; [done|].
  destruct (diag.Contains diags n); apply IH; [done|].
  apply elem_of_app. by left.
Qed.

Lemma elem_of_Append_one (diags : diag.Diagnostics) (d : diag.Diagnostic) :
  d ∈ diag.Append diags [d].
Proof.
  rewrite Append_one. unfold diag.Contains.
  case_bool_decide; [done|]. apply elem_of_app. right. by apply list_elem_of_singleton.
Qed.

Lemma HasError_elem_of (diags : diag.Diagnostics) (d : diag.Diagnostic) :
  d ∈ diags -> diag.is_error d = true -> diag.HasError diags = true.
Proof.
  intros Hin He. unfold diag.HasError. apply existsb_exists.
  exists d. split; [by apply list_elem_of_In|done].
Qed.

Lemma HasError_app (d1 d2 : diag.Diagnostics) :
  diag.HasError (d1 ++ d2) = diag.HasError d1 || diag.HasError d2.
Proof. unfold diag.HasError. apply existsb_app. Qed.

Lemma HasError_Append_one (diags : diag.Diagnostics) (d : diag.Diagnostic) :
  diag.is_error d = true -> diag.HasError (diag.Append diags [d]) = true.
Proof.
  intros He. apply (HasError_elem_of _ d); [apply elem_of_Append_one|done].
Qed.

(* ===================================================================== *)
(** ** AccessControlDefaultModifier.PlanModifyObject, case by case *)
(* ===================================================================== *)

Import types.

Lemma GetAttribute_is_private (m : models.Model) :
  tfsdk.GetAttribute_Bool (tfsdk.Known m) (path.Root "is_private")
  = models.IsPrivate m.
Proof. reflexivity. Qed.

Lemma GetAttribute_access_control (m : models.Model) :
  tfsdk.GetAttribute_Object (tfsdk.Known m) (path.Root "access_control")
  = models.AccessControl m.
Proof. reflexivity. Qed.

Lemma emptyList_value :
  ListValueFrom StringType [] = (ListKnown StringType [], []).
Proof. reflexivity. Qed.

Lemma emptyPermissions_value :
  ObjectValue AccessControlDefaultModifier.permissionTypes
    {[ "group_ids" := VList (ListKnown StringType []);
       "user_ids" := VList (ListKnown StringType []) ]}
  = (AccessControlDefaultModifier.emptyPermissions, []).
Proof. vm_compute. reflexivity. Qed.

Lemma emptyAccessControl_value :
  ObjectValue AccessControlDefaultModifier.attributeTypes
    {[ "read" := VObject AccessControlDefaultModifier.emptyPermissions;
       "write" := VObject AccessControlDefaultModifier.emptyPermissions ]}
  = (AccessControlDefaultModifier.emptyAccessControl, []).
Proof. vm_compute. reflexivity. Qed.

(** The three outcomes of the modifier, by the privacy flag [ValueBool]
    reads and by whether the access control is unset. *)
Lemma PlanModifyObject_cases
    (req : planmodifier.ObjectRequest) (resp : planmodifier.ObjectResponse) :
  let isPrivate :=
    ValueBool (tfsdk.GetAttribute_Bool (planmodifier.Plan req)
                                       (path.Root "is_private")) in
  let accessControl :=
    tfsdk.GetAttribute_Object (planmodifier.Plan req)
                              (path.Root "access_control") in
  let unset := Object_IsNull accessControl || Object_IsUnknown accessControl in
  AccessControlDefaultModifier.PlanModifyObject req resp =
    if isPrivate then
      if unset then
        planmodifier.mkObjectResponse
          AccessControlDefaultModifier.emptyAccessControl
          (planmodifier.Diagnostics resp) (planmodifier.RequiresReplace resp)
      else resp
    else
      if unset then
        planmodifier.mkObjectResponse
          (ObjectNull AccessControlDefaultModifier.attributeTypes)
          (planmodifier.Diagnostics resp) (planmodifier.RequiresReplace resp)
      else
        planmodifier.mkObjectResponse
          (planmodifier.RespPlanValue resp)
          (diag.AddAttributeError
             (diag.AddAttributeError (planmodifier.Diagnostics resp)
                (path.Root "is_private") "Invalid Value"
                "is_private must be true when access_control is specified.")
             (path.Root "access_control") "Invalid Value"
             "access_control cannot be specified when is_private is false.")
          (planmodifier.RequiresReplace resp).
Proof.
  intros isPrivate accessControl unset.
  unfold AccessControlDefaultModifier.PlanModifyObject.
  fold isPrivate. fold accessControl.
  replace (Object_IsUnknown accessControl || Object_IsNull accessControl)
    with unset by (unfold unset; apply orb_comm).
  fold unset.
  destruct isPrivate, unset; cbn [negb andb]; reflexivity.
Qed.

(** The modifier on a plan that reads as not private and holds an explicit
    access control: both attribute errors are reported and the plan value is
    left as it was. *)
Lemma PlanModifyObject_conflict
    (req : planmodifier.ObjectRequest) (resp : planmodifier.ObjectResponse) :
  ValueBool (tfsdk.GetAttribute_Bool (planmodifier.Plan req)
                                     (path.Root "is_private")) = false ->
  Object_IsNull (tfsdk.GetAttribute_Object (planmodifier.Plan req)
                   (path.Root "access_control")) = false ->
  Object_IsUnknown (tfsdk.GetAttribute_Object (planmodifier.Plan req)
                      (path.Root "access_control")) = false ->
  let resp' := AccessControlDefaultModifier.PlanModifyObject req resp in
  AccessControlDefaultModifier.is_private_conflict
    ∈ planmodifier.Diagnostics resp'
  /\ AccessControlDefaultModifier.access_control_conflict
       ∈ planmodifier.Diagnostics resp'
  /\ diag.HasError (planmodifier.Diagnostics resp') = true
  /\ planmodifier.RespPlanValue resp' = planmodifier.RespPlanValue resp.
Proof.
  intros Hp Hn Hu resp'. subst resp'.
  rewrite PlanModifyObject_cases. cbv zeta. rewrite Hp, Hn, Hu.
  cbn [orb planmodifier.Diagnostics planmodifier.RespPlanValue].
  unfold diag.AddAttributeError.
  fold AccessControlDefaultModifier.is_private_conflict.
  fold AccessControlDefaultModifier.access_control_conflict.
  split; [|split; [|split]].
  - apply elem_of_Append_l, elem_of_Append_one.
  - apply elem_of_Append_one.
  - by apply HasError_Append_one.
  - reflexivity.
Qed.

(** The modifier on a plan that reads as not private and leaves the access
    control unset: the plan value becomes the null object. *)
Lemma PlanModifyObject_public
    (req : planmodifier.ObjectRequest) (resp : planmodifier.ObjectResponse) :
  ValueBool (tfsdk.GetAttribute_Bool (planmodifier.Plan req)
                                     (path.Root "is_private")) = false ->
  Object_IsNull (tfsdk.GetAttribute_Object (planmodifier.Plan req)
                   (path.Root "access_control"))
  || Object_IsUnknown (tfsdk.GetAttribute_Object (planmodifier.Plan req)
                         (path.Root "access_control")) = true ->
  AccessControlDefaultModifier.PlanModifyObject req resp
  = planmodifier.mkObjectResponse
      (ObjectNull AccessControlDefaultModifier.attributeTypes)
      (planmodifier.Diagnostics resp) (planmodifier.RequiresReplace resp).
Proof.
  intros Hp Hu. rewrite PlanModifyObject_cases. cbv zeta.
  rewrite Hp, Hu. reflexivity.
Qed.

(* ===================================================================== *)
(** ** The default resolver *)
(* ===================================================================== *)

(** C3. A desired state with [is_private == false] and an access control that
    is explicitly present (neither null nor unknown) fails default resolution
    with a validation error on the [is_private] attribute and one on the
    [access_control] attribute, the plan value is left as it was, and the
    reconciliation of that desired state ends with an error without any call
    on the remote store. *)
Theorem C3_conflict_fails_validation
    (req : planmodifier.ObjectRequest) (resp : planmodifier.ObjectResponse)
    (m : models.Model) :
  planmodifier.Plan req = tfsdk.Known m ->
  models.IsPrivate m = BoolValue false ->
  Object_IsNull (models.AccessControl m) = false ->
  Object_IsUnknown (models.AccessControl m) = false ->
  let resp' := AccessControlDefaultModifier.PlanModifyObject req resp in
  (diag.Sev AccessControlDefaultModifier.is_private_conflict
   = diag.SeverityError
   /\ diag.AttrPath AccessControlDefaultModifier.is_private_conflict
      = Some (path.Root "is_private")
   /\ AccessControlDefaultModifier.is_private_conflict
        ∈ planmodifier.Diagnostics resp')
  /\ (diag.Sev AccessControlDefaultModifier.access_control_conflict
      = diag.SeverityError
      /\ diag.AttrPath AccessControlDefaultModifier.access_control_conflict
         = Some (path.Root "access_control")
      /\ AccessControlDefaultModifier.access_control_conflict
           ∈ planmodifier.Diagnostics resp')
  /\ diag.HasError (planmodifier.Diagnostics resp') = true
  /\ planmodifier.RespPlanValue resp' = planmodifier.RespPlanValue resp
  /\ forall (S : Type) (c : models.Client S) (config : tfsdk.Config)
            (w : effects.World S),
       exists r,
         reconcile.Create c config m w = (effects.Returned r, w)
         /\ diag.HasError (resource.Diagnostics r) = true
         /\ resource.State r = tfsdk.Null.
Proof.
  intros HP Hp Hn Hu resp'.
  destruct (PlanModifyObject_conflict req resp) as (H1 & H2 & H3 & H4).
  { by rewrite HP, GetAttribute_is_private, Hp. }
  { by rewrite HP, GetAttribute_access_control. }
  { by rewrite HP, GetAttribute_access_control. }
  repeat split; try done.
  intros S c config w. unfold reconcile.Create.
  destruct (diag.HasError (schema.ValidateConfig _ config)) eqn:Hv.
  { eexists. split; [reflexivity|]. split; [exact Hv|reflexivity]. }
  destruct (PlanModifyObject_conflict
              (planmodifier.mkObjectRequest
                 (path.Root "access_control") config
                 (tfsdk.GetAttribute_Object config (path.Root "access_control"))
                 (tfsdk.Known m) (models.AccessControl m) tfsdk.Null
                 (tfsdk.GetAttribute_Object tfsdk.Null
                    (path.Root "access_control")))
              (planmodifier.initial
                 (planmodifier.mkObjectRequest
                    (path.Root "access_control") config
                    (tfsdk.GetAttribute_Object config
                       (path.Root "access_control"))
                    (tfsdk.Known m) (models.AccessControl m) tfsdk.Null
                    (tfsdk.GetAttribute_Object tfsdk.Null
                       (path.Root "access_control")))))
    as (_ & _ & He & _).
  { cbn [planmodifier.Plan]. by rewrite GetAttribute_is_private, Hp. }
  { cbn [planmodifier.Plan]. by rewrite GetAttribute_access_control. }
  { cbn [planmodifier.Plan]. by rewrite GetAttribute_access_control. }
  unfold reconcile.resolve. rewrite He.
  eexists. split; [reflexivity|]. split; [exact He|reflexivity].
Qed.

(** C3 at a public model that lists who may read it. *)
Lemma C3_conflict_fails_validation_witness :
  let m := examples.declared (StringValue "m-1") examples.no_params
             (BoolValue false) examples.shared_with_ada in
  let resp' :=
    AccessControlDefaultModifier.PlanModifyObject
      (examples.modify m tfsdk.Null)
      (planmodifier.initial (examples.modify m tfsdk.Null)) in
  diag.HasError (planmodifier.Diagnostics resp') = true
  /\ planmodifier.RespPlanValue resp' = examples.shared_with_ada
  /\ exists r,
       reconcile.Create examples.memory (tfsdk.Known m) m examples.empty_world
       = (effects.Returned r, examples.empty_world).
Proof.
  intros m resp'.
  destruct (C3_conflict_fails_validation
              (examples.modify m tfsdk.Null)
              (planmodifier.initial (examples.modify m tfsdk.Null)) m)
    as (_ & _ & He & Hv & Hc); try reflexivity.
  split; [exact He|]. split; [exact Hv|].
  destruct (Hc examples.Store examples.memory (tfsdk.Known m)
              examples.empty_world) as (r & Hr & _).
  exists r. exact Hr.
Defined.

(** C4. A desired state with [is_private == true] and an access control that
    is unset (null or unknown) resolves to the access control
    [{read: {group_ids: [], user_ids: []}, write: {group_ids: [],
    user_ids: []}}], all four lists known and empty, without a diagnostic. *)
Theorem C4_private_unset_gets_empty_lists
    (req : planmodifier.ObjectRequest) (resp : planmodifier.ObjectResponse)
    (m : models.Model) :
  planmodifier.Plan req = tfsdk.Known m ->
  models.IsPrivate m = BoolValue true ->
  Object_IsNull (models.AccessControl m)
  || Object_IsUnknown (models.AccessControl m) = true ->
  let resp' := AccessControlDefaultModifier.PlanModifyObject req resp in
  planmodifier.RespPlanValue resp'
  = ObjectKnown AccessControlDefaultModifier.attributeTypes
      {[ "read" :=
           VObject (ObjectKnown AccessControlDefaultModifier.permissionTypes
             {[ "group_ids" := VList (ListKnown StringType []);
                "user_ids" := VList (ListKnown StringType []) ]});
         "write" :=
           VObject (ObjectKnown AccessControlDefaultModifier.permissionTypes
             {[ "group_ids" := VList (ListKnown StringType []);
                "user_ids" := VList (ListKnown StringType []) ]}) ]}
  /\ planmodifier.Diagnostics resp' = planmodifier.Diagnostics resp.
Proof.
  intros HP Hp Hu resp'. subst resp'.
  rewrite PlanModifyObject_cases. cbv zeta.
  rewrite HP, GetAttribute_is_private, GetAttribute_access_control, Hp, Hu.
  split; reflexivity.
Qed.

(** C4 at a private model whose access control is unknown at plan time. *)
Lemma C4_private_unset_gets_empty_lists_witness :
  let m := examples.declared (StringValue "m-1") examples.no_params
             (BoolValue true)
             (ObjectUnknown AccessControlDefaultModifier.attributeTypes) in
  planmodifier.RespPlanValue
    (AccessControlDefaultModifier.PlanModifyObject
       (examples.modify m tfsdk.Null)
       (planmodifier.initial (examples.modify m tfsdk.Null)))
  = AccessControlDefaultModifier.emptyAccessControl.
Proof.
  intros m.
  apply (C4_private_unset_gets_empty_lists
           (examples.modify m tfsdk.Null)
           (planmodifier.initial (examples.modify m tfsdk.Null)) m);
    reflexivity.
Defined.

(** C5. A desired state with [is_private == false] whose access control is
    null or unknown (so that the conflict does not fire) resolves to the null
    access control, whatever the request holds as configured, planned or
    stored value, and without a diagnostic. *)
Theorem C5_public_clears_access_control
    (req : planmodifier.ObjectRequest) (resp : planmodifier.ObjectResponse)
    (m : models.Model) :
  planmodifier.Plan req = tfsdk.Known m ->
  models.IsPrivate m = BoolValue false ->
  Object_IsNull (models.AccessControl m)
  || Object_IsUnknown (models.AccessControl m) = true ->
  let resp' := AccessControlDefaultModifier.PlanModifyObject req resp in
  planmodifier.RespPlanValue resp'
  = ObjectNull AccessControlDefaultModifier.attributeTypes
  /\ Object_IsNull (planmodifier.RespPlanValue resp') = true
  /\ planmodifier.Diagnostics resp' = planmodifier.Diagnostics resp.
Proof.
  intros HP Hp Hu resp'. subst resp'.
  rewrite PlanModifyObject_public.
  - repeat split.
  - by rewrite HP, GetAttribute_is_private, Hp.
  - by rewrite HP, GetAttribute_access_control.
Qed.

(** C5 at a model made public whose stored access control named a reader. *)
Lemma C5_public_clears_access_control_witness :
  let m := examples.declared (StringValue "m-1") examples.no_params
             (BoolValue false)
             (ObjectUnknown AccessControlDefaultModifier.attributeTypes) in
  let old := tfsdk.Known
               (examples.declared (StringValue "m-1") examples.no_params
                  (BoolValue true) examples.shared_with_ada) in
  planmodifier.StateValue (examples.modify m old) = examples.shared_with_ada
  /\ planmodifier.RespPlanValue
       (AccessControlDefaultModifier.PlanModifyObject
          (examples.modify m old) (planmodifier.initial (examples.modify m old)))
     = ObjectNull AccessControlDefaultModifier.attributeTypes.
Proof.
  intros m old. split; [reflexivity|].
  apply (C5_public_clears_access_control
           (examples.modify m old)
           (planmodifier.initial (examples.modify m old)) m);
    reflexivity.
Defined.

(** C9. A desired state whose [is_private] is null or unknown at resolution
    time is resolved exactly as the same desired state with
    [is_private == false]: with an explicit access control both attribute
    errors are reported, and otherwise the access control is forced to
    null. *)
Theorem C9_null_or_unknown_privacy_reads_as_false
    (req : planmodifier.ObjectRequest) (resp : planmodifier.ObjectResponse)
    (m : models.Model) :
  planmodifier.Plan req = tfsdk.Known m ->
  models.IsPrivate m = BoolNull \/ models.IsPrivate m = BoolUnknown ->
  let resp' := AccessControlDefaultModifier.PlanModifyObject req resp in
  resp' = AccessControlDefaultModifier.PlanModifyObject
            (planmodifier.with_Plan req
               (tfsdk.Known (models.set_IsPrivate m (BoolValue false))))
            resp
  /\ (Object_IsNull (models.AccessControl m) = false ->
      Object_IsUnknown (models.AccessControl m) = false ->
      AccessControlDefaultModifier.is_private_conflict
        ∈ planmodifier.Diagnostics resp'
      /\ AccessControlDefaultModifier.access_control_conflict
           ∈ planmodifier.Diagnostics resp'
      /\ diag.HasError (planmodifier.Diagnostics resp') = true)
  /\ (Object_IsNull (models.AccessControl m)
      || Object_IsUnknown (models.AccessControl m) = true ->
      planmodifier.RespPlanValue resp'
      = ObjectNull AccessControlDefaultModifier.attributeTypes).
Proof.
  intros HP Hp resp'.
  assert (Hv : ValueBool (tfsdk.GetAttribute_Bool (planmodifier.Plan req)
                            (path.Root "is_private")) = false).
  { rewrite HP, GetAttribute_is_private. by destruct Hp as [-> | ->]. }
  split; [|split].
  - subst resp'. rewrite !PlanModifyObject_cases. cbv zeta.
    rewrite Hv, HP. cbn [planmodifier.with_Plan planmodifier.Plan].
    rewrite !GetAttribute_is_private, !GetAttribute_access_control.
    reflexivity.
  - intros Hn Hu.
    destruct (PlanModifyObject_conflict req resp) as (H1 & H2 & H3 & _);
      [done| by rewrite HP, GetAttribute_access_control
           | by rewrite HP, GetAttribute_access_control |].
    done.
  - intros Hu. subst resp'. rewrite PlanModifyObject_public; [done|done|].
    by rewrite HP, GetAttribute_access_control.
Qed.

(** C9 at a model whose privacy flag is null, once with an explicit access
    control and once without. *)
Lemma C9_null_or_unknown_privacy_reads_as_false_witness :
  let m := examples.declared (StringValue "m-1") examples.no_params
             BoolNull examples.shared_with_ada in
  let n := examples.declared (StringValue "m-1") examples.no_params
             BoolUnknown (ObjectUnknown ∅) in
  diag.HasError
    (planmodifier.Diagnostics
       (AccessControlDefaultModifier.PlanModifyObject
          (examples.modify m tfsdk.Null)
          (planmodifier.initial (examples.modify m tfsdk.Null)))) = true
  /\ planmodifier.RespPlanValue
       (AccessControlDefaultModifier.PlanModifyObject
          (examples.modify n tfsdk.Null)
          (planmodifier.initial (examples.modify n tfsdk.Null)))
     = ObjectNull AccessControlDefaultModifier.attributeTypes.
Proof.
  intros m n. split.
  - destruct (C9_null_or_unknown_privacy_reads_as_false
                (examples.modify m tfsdk.Null)
                (planmodifier.initial (examples.modify m tfsdk.Null)) m)
      as (_ & H & _); [reflexivity|by left|].
    apply H; reflexivity.
  - destruct (C9_null_or_unknown_privacy_reads_as_false
                (examples.modify n tfsdk.Null)
                (planmodifier.initial (examples.modify n tfsdk.Null)) n)
      as (_ & _ & H); [reflexivity|by right|].
    apply H; reflexivity.
Defined.

(* ===================================================================== *)
(** ** The handlers, run *)
(* ===================================================================== *)

Import effects.

Lemma Contains_no_error (diags : diag.Diagnostics) (d : diag.Diagnostic) :
  diag.HasError diags = false -> diag.is_error d = true ->
  diag.Contains diags d = false.
Proof.
  intros Hn He. unfold diag.Contains. case_bool_decide as Hin; [|done].
  by rewrite (HasError_elem_of diags d Hin He) in Hn.
Qed.

Lemma AddError_fresh (resp : resource.Response) (summary detail : string) :
  diag.HasError (resource.Diagnostics resp) = false ->
  resource.AddError resp summary detail
  = resource.mkResponse (resource.State resp)
      (resource.Diagnostics resp
         ++ [diag.NewErrorDiagnostic summary detail]).
Proof.
  intros Hn. unfold resource.AddError, diag.AddError. rewrite Append_one.
  by rewrite Contains_no_error.
Qed.

Section handlers_run.
Context {S : Type} (c : models.Client S).

(** Create when the store answers with a resource. *)
Lemma Create_answered (req : resource.CreateRequest) (resp : resource.Response)
    (w : World S) (plan created : models.Model) (s' : S) :
  resource.CreatePlan req = tfsdk.Known plan ->
  diag.HasError (resource.Diagnostics resp) = false ->
  models.CreateModel c plan (store w) = ((Some created, None), s') ->
  ModelResource.Create c req resp w
  = (Returned
       (if String_IsNull (models.ID created)
        then resource.AddError resp "Error creating model"
               "Model ID is null after creation"
        else resource.mkResponse (tfsdk.Known created)
               (resource.Diagnostics resp)),
     mkWorld s' (calls w ++ [CallCreateModel plan])).
Proof.
  intros HP Hn Hc. unfold ModelResource.Create. rewrite HP.
  cbn [tfsdk.Get resource.Append resource.Diagnostics]. rewrite Append_nil, Hn.
  unfold mbind, M_bind, CreateModel, call. rewrite Hc.
  cbn [deref mret M_ret].
  destruct (String_IsNull (models.ID created)); reflexivity.
Qed.

(** Read when the store answers with a resource. *)
Lemma Read_answered (req : resource.ReadRequest) (resp : resource.Response)
    (w : World S) (state remote : models.Model) (s' : S) :
  resource.ReadState req = tfsdk.Known state ->
  diag.HasError (resource.Diagnostics resp) = false ->
  models.GetModel c (ValueString (models.ID state)) (store w)
    = ((Some remote, None), s') ->
  ModelResource.Read c req resp w
  = (Returned
       (resource.mkResponse
          (tfsdk.Known
             (if String_IsNull (models.ID remote)
              then models.set_ID remote (models.ID state) else remote))
          (resource.Diagnostics resp)),
     mkWorld s' (calls w ++ [CallGetModel (ValueString (models.ID state))])).
Proof.
  intros HS Hn Hc. unfold ModelResource.Read. rewrite HS.
  cbn [tfsdk.Get resource.Append resource.Diagnostics]. rewrite Append_nil, Hn.
  unfold mbind, M_bind, GetModel, call. rewrite Hc.
  reflexivity.
Qed.

(** Read when the store answers with an error. *)
Lemma Read_failed (req : resource.ReadRequest) (resp : resource.Response)
    (w : World S) (state : models.Model) (model : option models.Model)
    (e : models.error) (s' : S) :
  resource.ReadState req = tfsdk.Known state ->
  diag.HasError (resource.Diagnostics resp) = false ->
  models.GetModel c (ValueString (models.ID state)) (store w)
    = ((model, Some e), s') ->
  ModelResource.Read c req resp w
  = (Returned (resource.AddError resp "Error reading model" e),
     mkWorld s' (calls w ++ [CallGetModel (ValueString (models.ID state))])).
Proof.
  intros HS Hn Hc. unfold ModelResource.Read. rewrite HS.
  cbn [tfsdk.Get resource.Append resource.Diagnostics]. rewrite Append_nil, Hn.
  unfold mbind, M_bind, GetModel, call. rewrite Hc.
  destruct resp; reflexivity.
Qed.

(** Update, up to the answer of the store: the call that is dispatched. *)
Lemma Update_dispatch (req : resource.UpdateRequest) (resp : resource.Response)
    (w : World S) (plan state : models.Model) :
  resource.UpdatePlan req = tfsdk.Known plan ->
  resource.UpdateState req = tfsdk.Known state ->
  diag.HasError (resource.Diagnostics resp) = false ->
  calls (ModelResource.Update c req resp w).2
  = calls w ++ [CallUpdateModel (ValueString (models.ID state))
                  (models.set_ID plan (models.ID state))].
Proof.
  intros HP HS Hn. unfold ModelResource.Update. rewrite HP, HS.
  cbn [tfsdk.Get resource.Append resource.Diagnostics].
  rewrite !Append_nil, Hn.
  unfold mbind, M_bind, UpdateModel, call.
  destruct (models.UpdateModel c _ _ (store w)) as [[model [e|]] s'];
    [reflexivity|].
  destruct model; reflexivity.
Qed.

(** Update when the store answers with a resource. *)
Lemma Update_answered (req : resource.UpdateRequest) (resp : resource.Response)
    (w : World S) (plan state remote : models.Model) (s' : S) :
  resource.UpdatePlan req = tfsdk.Known plan ->
  resource.UpdateState req = tfsdk.Known state ->
  diag.HasError (resource.Diagnostics resp) = false ->
  models.UpdateModel c (ValueString (models.ID state))
    (models.set_ID plan (models.ID state)) (store w)
    = ((Some remote, None), s') ->
  ModelResource.Update c req resp w
  = (Returned
       (resource.mkResponse
          (tfsdk.Known
             (if String_IsNull (models.ID remote)
              then models.set_ID remote (models.ID state) else remote))
          (resource.Diagnostics resp)),
     mkWorld s' (calls w ++ [CallUpdateModel (ValueString (models.ID state))
                               (models.set_ID plan (models.ID state))])).
Proof.
  intros HP HS Hn Hc. unfold ModelResource.Update. rewrite HP, HS.
  cbn [tfsdk.Get resource.Append resource.Diagnostics].
  rewrite !Append_nil, Hn.
  unfold mbind, M_bind, UpdateModel, call. rewrite Hc.
  reflexivity.
Qed.

End handlers_run.

(* ===================================================================== *)
(** ** Identity across Read and Update *)
(* ===================================================================== *)

(** C1. The code does not keep the stored identity at the example the
    specification gives: with "m-1" stored and a store that answers with the
    empty string as id, Read and Update both store the resource with the
    empty id.  The fallback headed "Ensure the ID is preserved" tests
    [IsNull] alone, and the known empty string is not null. *)
Lemma C1_empty_remote_identity_is_stored :
  ModelResource.Read examples.blank_id
    (resource.mkReadRequest examples.stored)
    (examples.fresh examples.stored) examples.holding_m1
  = (Returned
       (resource.mkResponse
          (tfsdk.Known (models.set_ID examples.m1 (StringValue ""))) []),
     mkWorld (store examples.holding_m1) [CallGetModel "m-1"])
  /\ ModelResource.Update examples.blank_id
       (resource.mkUpdateRequest (tfsdk.Known examples.m1)
          (tfsdk.Known examples.m1) examples.stored)
       (examples.fresh examples.stored) examples.holding_m1
     = (Returned
          (resource.mkResponse
             (tfsdk.Known (models.set_ID examples.m1 (StringValue ""))) []),
        mkWorld (store examples.holding_m1)
          [CallUpdateModel "m-1" examples.m1])
  /\ ~ stated.Read_keeps_identity examples.blank_id examples.m1
        examples.holding_m1
  /\ ~ stated.Update_keeps_identity examples.blank_id examples.m1 examples.m1
        examples.holding_m1.
Proof.
  split; [vm_compute; reflexivity|]. split; [vm_compute; reflexivity|].
  split; intros H.
  - destruct (H (models.set_ID examples.m1 (StringValue ""))
                (store examples.holding_m1))
      as (resp' & w' & merged & Hrun & Hst & Hid);
      [discriminate|reflexivity|reflexivity|].
    erewrite Read_answered in Hrun; [|reflexivity..].
    injection Hrun as <- _. cbn in Hst. injection Hst as <-.
    discriminate Hid.
  - destruct (H (models.set_ID examples.m1 (StringValue ""))
                (<["m-1" := examples.m1]> (store examples.holding_m1)))
      as (resp' & w' & merged & Hrun & Hst & Hid);
      [discriminate|reflexivity|reflexivity|].
    erewrite Update_answered in Hrun; [|reflexivity..].
    injection Hrun as <- _. cbn in Hst. injection Hst as <-.
    discriminate Hid.
Qed.

(** X21. On Read and on Update, when the store answers with a resource
    whose id is null, the result stored in the state is that resource with
    the stored id; a resource whose id is not null is stored as the store
    gave it. *)
Theorem X21_null_identity_is_replaced_by_stored
    {S : Type} (c : models.Client S) (state : models.Model)
    (resp : resource.Response) (w : World S) :
  diag.HasError (resource.Diagnostics resp) = false ->
  (forall req remote s',
      resource.ReadState req = tfsdk.Known state ->
      models.GetModel c (ValueString (models.ID state)) (store w)
        = ((Some remote, None), s') ->
      exists merged w',
        ModelResource.Read c req resp w
          = (Returned (resource.mkResponse (tfsdk.Known merged)
                         (resource.Diagnostics resp)), w')
        /\ (models.ID remote = StringNull ->
            merged = models.set_ID remote (models.ID state)
            /\ models.ID merged = models.ID state)
        /\ (models.ID remote <> StringNull -> merged = remote))
  /\ (forall req plan remote s',
      resource.UpdatePlan req = tfsdk.Known plan ->
      resource.UpdateState req = tfsdk.Known state ->
      models.UpdateModel c (ValueString (models.ID state))
        (models.set_ID plan (models.ID state)) (store w)
        = ((Some remote, None), s') ->
      exists merged w',
        ModelResource.Update c req resp w
          = (Returned (resource.mkResponse (tfsdk.Known merged)
                         (resource.Diagnostics resp)), w')
        /\ (models.ID remote = StringNull ->
            merged = models.set_ID remote (models.ID state)
            /\ models.ID merged = models.ID state)
        /\ (models.ID remote <> StringNull -> merged = remote)).
Proof.
  intros Hn. split.
  - intros req remote s' HS Hc.
    eexists _, _. split; [by apply Read_answered|].
    split.
    + intros ->. by split.
    + intros Hne. by destruct (models.ID remote).
  - intros req plan remote s' HP HS Hc.
    eexists _, _. split; [by eapply Update_answered|].
    split.
    + intros ->. by split.
    + intros Hne. by destruct (models.ID remote).
Qed.

(** X21 with "m-1" stored and a remote that leaves the id out. *)
Lemma X21_null_identity_is_replaced_by_stored_witness :
  exists merged w',
    ModelResource.Read examples.omits_id
      (resource.mkReadRequest examples.stored)
      (examples.fresh examples.stored) examples.holding_m1
    = (Returned (resource.mkResponse (tfsdk.Known merged) []), w')
    /\ models.ID merged = StringValue "m-1".
Proof.
  destruct (X21_null_identity_is_replaced_by_stored
              examples.omits_id examples.m1
              (examples.fresh examples.stored) examples.holding_m1)
    as [HR _]; [reflexivity|].
  destruct (HR (resource.mkReadRequest examples.stored)
               (models.set_ID examples.m1 StringNull)
               (store examples.holding_m1))
    as (merged & w' & Hrun & Hnull & _); [reflexivity|reflexivity|].
  exists merged, w'. split; [exact Hrun|].
  destruct Hnull as [_ Hid]; [reflexivity|exact Hid].
Defined.

(** C2. On every Update that reaches the store, whatever id the plan holds,
    the one call dispatched is [UpdateModel] with the stored id and with the
    plan whose [ID] field has been overwritten with the stored id. *)
Theorem C2_update_sends_stored_identity
    {S : Type} (c : models.Client S) (req : resource.UpdateRequest)
    (resp : resource.Response) (w : World S) (plan state : models.Model) :
  resource.UpdatePlan req = tfsdk.Known plan ->
  resource.UpdateState req = tfsdk.Known state ->
  diag.HasError (resource.Diagnostics resp) = false ->
  exists sent,
    calls (ModelResource.Update c req resp w).2
    = calls w ++ [CallUpdateModel (ValueString (models.ID state)) sent]
    /\ models.ID sent = models.ID state
    /\ sent = models.set_ID plan (models.ID state).
Proof.
  intros HP HS Hn. exists (models.set_ID plan (models.ID state)).
  split; [by apply Update_dispatch|]. by split.
Qed.

(** C2 with "m-1" stored and a plan that asks for the id "m-2". *)
Lemma C2_update_sends_stored_identity_witness :
  let plan := models.set_ID examples.m1 (StringValue "m-2") in
  exists sent,
    calls (ModelResource.Update examples.memory
             (resource.mkUpdateRequest (tfsdk.Known plan) (tfsdk.Known plan)
                examples.stored)
             (examples.fresh examples.stored) examples.holding_m1).2
    = [CallUpdateModel "m-1" sent]
    /\ models.ID sent = StringValue "m-1".
Proof.
  intros plan.
  destruct (C2_update_sends_stored_identity examples.memory
              (resource.mkUpdateRequest (tfsdk.Known plan) (tfsdk.Known plan)
                 examples.stored)
              (examples.fresh examples.stored) examples.holding_m1
              plan examples.m1)
    as (sent & Hcalls & Hid & _); [reflexivity..|].
  exists sent. split; [exact Hcalls|exact Hid].
Defined.

(* ===================================================================== *)
(** ** Create *)
(* ===================================================================== *)

(** C6. When the store's create succeeds and the resource it returns has no
    identity (its id is null), Create reports the error "Model ID is null
    after creation" and returns with the state exactly as it found it: the
    resource is never set into the state. *)
Theorem C6_create_without_identity_fails
    {S : Type} (c : models.Client S) (req : resource.CreateRequest)
    (resp : resource.Response) (w : World S)
    (plan created : models.Model) (s' : S) :
  resource.CreatePlan req = tfsdk.Known plan ->
  diag.HasError (resource.Diagnostics resp) = false ->
  models.CreateModel c plan (store w) = ((Some created, None), s') ->
  models.ID created = StringNull ->
  exists resp',
    ModelResource.Create c req resp w
    = (Returned resp', mkWorld s' (calls w ++ [CallCreateModel plan]))
    /\ resource.State resp' = resource.State resp
    /\ resource.Diagnostics resp'
       = resource.Diagnostics resp
           ++ [diag.NewErrorDiagnostic "Error creating model"
                 "Model ID is null after creation"]
    /\ diag.HasError (resource.Diagnostics resp') = true.
Proof.
  intros HP Hn Hc Hid. eexists. split.
  { erewrite Create_answered by done. rewrite Hid. cbn [String_IsNull].
    by rewrite AddError_fresh. }
  cbn [resource.State resource.Diagnostics]. split; [done|]. split; [done|].
  rewrite HasError_app. apply orb_true_r.
Qed.

(** C6 on a store that leaves the id out of what it created. *)
Lemma C6_create_without_identity_fails_witness :
  exists resp' w',
    ModelResource.Create examples.omits_id
      (resource.mkCreateRequest (tfsdk.Known examples.m1)
         (tfsdk.Known examples.m1))
      (examples.fresh tfsdk.Null) examples.empty_world
    = (Returned resp', w')
    /\ resource.State resp' = tfsdk.Null
    /\ diag.HasError (resource.Diagnostics resp') = true.
Proof.
  destruct (C6_create_without_identity_fails examples.omits_id
              (resource.mkCreateRequest (tfsdk.Known examples.m1)
                 (tfsdk.Known examples.m1))
              (examples.fresh tfsdk.Null) examples.empty_world
              examples.m1 (models.set_ID examples.m1 StringNull)
              (<["m-1" := examples.m1]> (store examples.empty_world)))
    as (resp' & Hrun & Hst & _ & He); [reflexivity..|].
  exists resp'. eexists. split; [exact Hrun|]. split; [exact Hst|exact He].
Defined.




(** The coherence of the store is needed: a store that accepts the creation
    of "m-1" and then does not find it makes the Read that follows report
    the error of the store. *)
Lemma round_trip_fails_on_incoherent_store :
  ~ stated.Create_then_Read examples.forgetful examples.m1
      examples.empty_world.
Proof.
  intros H.
  destruct (H (resource.mkResponse (tfsdk.Known examples.m1) [])
              (mkWorld (<["m-1" := examples.m1]> (∅ : examples.Store))
                 [CallCreateModel examples.m1])
              examples.m1)
    as (resp2 & w2 & read & Hrun & He & _); [reflexivity..|].
  erewrite Read_failed in Hrun; [|reflexivity..].
  injection Hrun as <- _. discriminate He.
Qed.

(* ===================================================================== *)
(** ** The data source *)
(* ===================================================================== *)

(** C10. In the Read of the model data source, when the store's get returns
    neither an error nor a model, the nil model is first set into the state,
    which makes the state the null object whatever it was, and only then the
    error "No model found" is added: the call ends with an error and with a
    state it has modified. *)
Theorem C10_data_source_sets_state_before_nil_check
    {S : Type} (d : models.Client S) (req : datasource.ReadRequest)
    (resp : resource.Response) (w : World S) (config : models.Model) (s' : S) :
  datasource.Config req = tfsdk.Known config ->
  diag.HasError (resource.Diagnostics resp) = false ->
  models.GetModel d (ValueString (models.ID config)) (store w)
    = ((None, None), s') ->
  let not_found :=
    diag.NewErrorDiagnostic "Error reading model"
      ("No model found with name: " +:+ ValueString (models.ID config)) in
  exists resp',
    ModelDataSource.Read d req resp w
    = (Returned resp',
       mkWorld s' (calls w ++ [CallGetModel (ValueString (models.ID config))]))
    /\ resp' = resource.AddError (resource.SetState resp None)
                 "Error reading model"
                 ("No model found with name: "
                    +:+ ValueString (models.ID config))
    /\ resource.State resp' = tfsdk.Null
    /\ resource.Diagnostics resp' = resource.Diagnostics resp ++ [not_found]
    /\ diag.HasError (resource.Diagnostics resp') = true
    /\ (resource.State resp <> tfsdk.Null ->
        resource.State resp' <> resource.State resp).
Proof.
  intros HC Hn Hg not_found. eexists. split; [|split; [reflexivity|]].
  { unfold ModelDataSource.Read. rewrite HC.
    cbn [tfsdk.Get resource.Append resource.Diagnostics].
    rewrite Append_nil, Hn.
    unfold mbind, M_bind, GetModel, call. rewrite Hg. reflexivity. }
  rewrite AddError_fresh by exact Hn.
  cbn [resource.SetState tfsdk.Set_ resource.State resource.Diagnostics].
  rewrite Append_nil. split; [done|]. split; [done|]. split.
  - rewrite HasError_app. apply orb_true_r.
  - congruence.
Qed.

(** C10 on a store that answers a get with nothing at all; the state starts
    as the copy of the configuration. *)
Lemma C10_data_source_sets_state_before_nil_check_witness :
  exists resp' w',
    ModelDataSource.Read examples.silent
      (datasource.mkReadRequest examples.stored)
      (examples.fresh examples.stored) examples.holding_m1
    = (Returned resp', w')
    /\ resource.State resp' = tfsdk.Null
    /\ resource.State resp' <> resource.State (examples.fresh examples.stored)
    /\ diag.HasError (resource.Diagnostics resp') = true.
Proof.
  destruct (C10_data_source_sets_state_before_nil_check examples.silent
              (datasource.mkReadRequest examples.stored)
              (examples.fresh examples.stored) examples.holding_m1
              examples.m1 (store examples.holding_m1))
    as (resp' & Hrun & _ & Hst & _ & He & Hne); [reflexivity..|].
  exists resp'. eexists. split; [exact Hrun|]. split; [exact Hst|].
  split; [apply Hne; discriminate|exact He].
Defined.

(* ===================================================================== *)
(** ** Schema validation *)
(* ===================================================================== *)

Import schema.

Lemma elem_of_Append (diags new : diag.Diagnostics) (d : diag.Diagnostic) :
  d ∈ diag.Append diags new <-> d ∈ diags \/ d ∈ new.
Proof.
  revert diags. induction new as [|x new IH]; intros diags.
  - cbn. split; [by left|]. intros [?|H]; [done|]. by apply elem_of_nil in H.
  - cbn [diag.Append]. unfold diag.Contains. rewrite elem_of_cons.
    case_bool_decide as Hin; rewrite IH.
    + split; [tauto|]. intros [?|[->|?]]; tauto.
    + rewrite elem_of_app, list_elem_of_singleton. tauto.
Qed.

(** Induction on attributes, through the lists of nested attributes. *)
Lemma Attribute_nested_ind (P : Attribute -> Prop) :
  (forall mode vs, P (StringAttribute mode vs)) ->
  (forall mode, P (BoolAttribute mode)) ->
  (forall mode, P (Int64Attribute mode)) ->
  (forall mode, P (Float64Attribute mode)) ->
  (forall mode e, P (ListAttribute mode e)) ->
  (forall mode e, P (SetAttribute mode e)) ->
  (forall mode attrs,
      Forall (fun na => P na.2) attrs -> P (SingleNestedAttribute mode attrs)) ->
  (forall mode attrs,
      Forall (fun na => P na.2) attrs -> P (ListNestedAttribute mode attrs)) ->
  forall a, P a.
Proof.
  intros HS HB HI HF HL HT HN HM. fix IH 1. intros [ | | | | | | mode attrs | mode attrs];
    [apply HS|apply HB|apply HI|apply HF|apply HL|apply HT| |].
  - apply HN. induction attrs as [|[n a] l IHl]; constructor; [apply IH|apply IHl].
  - apply HM. induction attrs as [|[n a] l IHl]; constructor; [apply IH|apply IHl].
Qed.

(** The nested attributes of a known object are validated as the attributes
    of a configuration are, after the checks of the mode. *)
Lemma AttributeValidate_SingleNested mode attrs p ats vals diags :
  undefined_mode mode = false ->
  AttributeValidate (SingleNestedAttribute mode attrs) p
    (Some (VObject (ObjectKnown ats vals))) diags
  = AttributesValidate attrs p (fun name => vals !! name)
      (ModeValidate mode p (Some (VObject (ObjectKnown ats vals))) diags).
Proof.
  intros Hm. cbn [AttributeValidate Attribute_mode]. rewrite Hm.
  generalize (ModeValidate mode p (Some (VObject (ObjectKnown ats vals))) diags).
  induction attrs as [|[n a] l IHl]; intros ds; [reflexivity|].
  cbn [AttributesValidate]. rewrite <- IHl. reflexivity.
Qed.

(** The elements of a known list are validated by [ElementsValidate]. *)
Lemma AttributeValidate_ListNested mode attrs p e elems diags :
  undefined_mode mode = false ->
  AttributeValidate (ListNestedAttribute mode attrs) p
    (Some (VList (ListKnown e elems))) diags
  = ElementsValidate attrs p elems 0
      (ModeValidate mode p (Some (VList (ListKnown e elems))) diags).
Proof.
  intros Hm. cbn [AttributeValidate Attribute_mode]. rewrite Hm.
  generalize (ModeValidate mode p (Some (VList (ListKnown e elems))) diags).
  generalize 0.
  induction elems as [|x elems IHe]; intros i ds; [reflexivity|].
  cbn [ElementsValidate]. rewrite <- IHe. f_equal.
  destruct x as [| | | | | |[?|?|ats vals]]; try reflexivity.
  clear. revert ds.
  induction attrs as [|[n a] l IHl]; intros ds; [reflexivity|].
  cbn [AttributesValidate]. by rewrite <- IHl.
Qed.

(** What the checks of the mode add. *)
Lemma elem_of_ModeValidate mode p v diags d :
  d ∈ ModeValidate mode p v diags
  <-> d ∈ diags
      \/ (d = ReadOnlyDiagnostic p
          /\ Computed mode && negb (Optional mode) && negb (IsNull v) = true)
      \/ (d = MissingRequiredDiagnostic p
          /\ Required mode && IsNull v = true).
Proof.
  unfold ModeValidate.
  destruct (Computed mode && negb (Optional mode) && negb (IsNull v));
    destruct (Required mode && IsNull v);
    rewrite ?elem_of_Append, ?list_elem_of_singleton;
    intuition discriminate.
Qed.

(** What the validators of a string attribute add. *)
Lemma elem_of_ValidateStrings vs p s diags d :
  d ∈ fold_left (fun ds v => stringvalidator.ValidateString v p s ds) vs diags
  <-> d ∈ diags
      \/ exists values,
           stringvalidator.OneOf values ∈ vs
           /\ stringvalidator.rejects values s = true
           /\ d = stringvalidator.InvalidAttributeValueMatchDiagnostic
                    p values (ValueString s).
Proof.
  revert diags. induction vs as [|[values] vs IH]; intros diags.
  - cbn. split; [by left|]. intros [?|(values & H & _)]; [done|].
    by apply elem_of_nil in H.
  - cbn [fold_left stringvalidator.ValidateString]. rewrite IH.
    destruct (stringvalidator.rejects values s) eqn:Hr.
    + rewrite elem_of_Append, list_elem_of_singleton. split.
      * intros [[?| ->]|(vl & Hin & Hrj & ->)]; [by left| |].
        -- right. exists values. split; [by left|done].
        -- right. exists vl. split; [by right|done].
      * intros [?|(vl & Hin & Hrj & ->)]; [by left; left|].
        apply elem_of_cons in Hin as [[= ->]|Hin]; [by left; right|].
        right. by exists vl.
    + split.
      * intros [?|(vl & Hin & Hrj & ->)]; [by left|].
        right. exists vl. split; [by right|done].
      * intros [?|(vl & Hin & Hrj & ->)]; [by left|].
        apply elem_of_cons in Hin as [[= ->]|Hin]; [congruence|].
        right. by exists vl.
Qed.

(** The diagnostics of the attributes of an object, given that those of
    each attribute do not depend on the diagnostics found before. *)
Lemma elem_of_AttributesValidate_from attrs p vals diags d :
  Forall (fun na => forall p v ds d,
            d ∈ AttributeValidate na.2 p v ds
            <-> d ∈ ds \/ d ∈ AttributeValidate na.2 p v []) attrs ->
  d ∈ AttributesValidate attrs p vals diags
  <-> d ∈ diags
      \/ exists n a, (n, a) ∈ attrs
           /\ d ∈ AttributeValidate a (path.AtName p n) (vals n) [].
Proof.
  intros H. revert diags. induction H as [|[n a] l Ha _ IH]; intros diags.
  - cbn. split; [by left|]. intros [?|(n & a & Hin & _)]; [done|].
    by apply elem_of_nil in Hin.
  - cbn [AttributesValidate]. cbn [snd] in Ha. rewrite IH, Ha. split.
    + intros [[?|?]|(n' & a' & Hin & Hd)]; [by left| |].
      * right. exists n, a. split; [by left|done].
      * right. exists n', a'. split; [by right|done].
    + intros [?|(n' & a' & Hin & Hd)]; [by left; left|].
      apply elem_of_cons in Hin as [[= -> ->]|Hin]; [by left; right|].
      right. by exists n', a'.
Qed.

Lemma elem_of_ElementsValidate_from attrs p es i diags d :
  Forall (fun na => forall p v ds d,
            d ∈ AttributeValidate na.2 p v ds
            <-> d ∈ ds \/ d ∈ AttributeValidate na.2 p v []) attrs ->
  d ∈ ElementsValidate attrs p es i diags
  <-> d ∈ diags
      \/ exists j ats vals n a,
           es !! j = Some (VObject (ObjectKnown ats vals))
           /\ (n, a) ∈ attrs
           /\ d ∈ AttributeValidate a
                    (path.AtName (path.AtListIndex p (i + j)) n)
                    (vals !! n) [].
Proof.
  intros H. revert i diags. induction es as [|e es IH]; intros i diags.
  - cbn. split; [by left|]. by intros [?|(j & ? & ? & ? & ? & ? & _)].
  - cbn [ElementsValidate]. rewrite IH. split.
    + intros [Hd|(j & ats & vals & n & a & Hj & Hin & Hd)].
      * destruct e as [| | | | | |[?|?|ats vals]]; try by left.
        apply (elem_of_AttributesValidate_from _ _ _ _ _ H) in Hd
          as [?|(n & a & Hin & Hd)]; [by left|].
        right. exists 0, ats, vals, n, a.
        rewrite Nat.add_0_r. by split.
      * right. exists (Datatypes.S j), ats, vals, n, a.
        rewrite Nat.add_succ_r. by split.
    + intros [?|(j & ats & vals & n & a & Hj & Hin & Hd)].
      * left. destruct e as [| | | | | |[?|?|ats vals]]; try done.
        apply (elem_of_AttributesValidate_from _ _ _ _ _ H). by left.
      * destruct j as [|j].
        -- cbn in Hj. injection Hj as ->. left.
           apply (elem_of_AttributesValidate_from _ _ _ _ _ H). right.
           exists n, a. rewrite Nat.add_0_r in Hd. by split.
        -- right. exists j, ats, vals, n, a.
           rewrite Nat.add_succ_r in Hd. by split.
Qed.

(** The diagnostics an attribute adds do not depend on those found
    before. *)
Lemma elem_of_AttributeValidate a :
  forall p v diags d,
    d ∈ AttributeValidate a p v diags
    <-> d ∈ diags \/ d ∈ AttributeValidate a p v [].
Proof.
  assert (Hmode : forall mode p v diags d,
             d ∈ ModeValidate mode p v diags
             <-> d ∈ diags \/ d ∈ ModeValidate mode p v []).
  { intros. rewrite !elem_of_ModeValidate.
    split; [|intros [?|[H|?]]; [tauto|by apply elem_of_nil in H|tauto]].
    tauto. }
  assert (Hleaf : forall b, (forall p v ds,
               undefined_mode (Attribute_mode b) = false ->
               AttributeValidate b p v ds
               = ModeValidate (Attribute_mode b) p v ds) ->
             forall p v diags d,
               d ∈ AttributeValidate b p v diags
               <-> d ∈ diags \/ d ∈ AttributeValidate b p v []).
  { intros b Ha p v diags d.
    destruct (undefined_mode (Attribute_mode b)) eqn:Hu.
    - assert (Hinv : forall ds, AttributeValidate b p v ds
                = diag.Append ds [InvalidDefinitionDiagnostic p]).
      { intros ds. destruct b; cbn [AttributeValidate]; by rewrite Hu. }
      rewrite !Hinv, !elem_of_Append.
      split; [tauto|]. intros [?|[H|?]]; [tauto|by apply elem_of_nil in H|tauto].
    - rewrite !Ha by done. apply Hmode. }
  induction a as [mode vs|mode|mode|mode|mode e|mode e|mode attrs IH|mode attrs IH]
    using Attribute_nested_ind; intros p v diags d;
    try (apply Hleaf; intros p' v' ds' Hu; cbn [AttributeValidate];
         by rewrite Hu).
  - cbn [AttributeValidate Attribute_mode].
    destruct (undefined_mode mode).
    { rewrite !elem_of_Append.
      split; [tauto|]. intros [?|[H|?]]; [tauto|by apply elem_of_nil in H|tauto]. }
    destruct v as [[s| | | | | |]|]; try apply Hmode.
    rewrite !elem_of_ValidateStrings, Hmode. tauto.
  - destruct (undefined_mode mode) eqn:Hu.
    { cbn [AttributeValidate Attribute_mode]. rewrite Hu, !elem_of_Append.
      split; [tauto|]. intros [?|[H|?]]; [tauto|by apply elem_of_nil in H|tauto]. }
    destruct v as [[| | | | | |[ats|ats|ats vals]]|];
      try (cbn [AttributeValidate Attribute_mode]; rewrite Hu; apply Hmode).
    rewrite !AttributeValidate_SingleNested by done.
    rewrite !(elem_of_AttributesValidate_from _ _ _ _ _ IH), Hmode. tauto.
  - destruct (undefined_mode mode) eqn:Hu.
    { cbn [AttributeValidate Attribute_mode]. rewrite Hu, !elem_of_Append.
      split; [tauto|]. intros [?|[H|?]]; [tauto|by apply elem_of_nil in H|tauto]. }
    destruct v as [[| | | |[e|e|e elems]| |]|];
      try (cbn [AttributeValidate Attribute_mode]; rewrite Hu; apply Hmode).
    rewrite !AttributeValidate_ListNested by done.
    rewrite !(elem_of_ElementsValidate_from _ _ _ _ _ _ IH), Hmode. tauto.
Qed.

Lemma elem_of_AttributesValidate attrs p vals diags d :
  d ∈ AttributesValidate attrs p vals diags
  <-> d ∈ diags
      \/ exists n a, (n, a) ∈ attrs
           /\ d ∈ AttributeValidate a (path.AtName p n) (vals n) [].
Proof.
  apply elem_of_AttributesValidate_from, Forall_forall.
  intros na _. apply elem_of_AttributeValidate.
Qed.

Lemma elem_of_ElementsValidate attrs p es i diags d :
  d ∈ ElementsValidate attrs p es i diags
  <-> d ∈ diags
      \/ exists j ats vals n a,
           es !! j = Some (VObject (ObjectKnown ats vals))
           /\ (n, a) ∈ attrs
           /\ d ∈ AttributeValidate a
                    (path.AtName (path.AtListIndex p (i + j)) n)
                    (vals !! n) [].
Proof.
  apply elem_of_ElementsValidate_from, Forall_forall.
  intros na _. apply elem_of_AttributeValidate.
Qed.

(** Every diagnostic of an attribute is at its path or below. *)
Lemma AttributeValidate_path a :
  forall p v d,
    d ∈ AttributeValidate a p v [] ->
    exists q, diag.AttrPath d = Some (p ++ q).
Proof.
  assert (Hmode : forall mode p v d,
             d ∈ ModeValidate mode p v [] ->
             exists q, diag.AttrPath d = Some (p ++ q)).
  { intros mode p v d. rewrite elem_of_ModeValidate.
    intros [H|[[-> _]|[-> _]]]; [by apply elem_of_nil in H| |];
      exists []; by rewrite app_nil_r. }
  assert (Hinv : forall p d,
             d ∈ diag.Append [] [InvalidDefinitionDiagnostic p] ->
             exists q, diag.AttrPath d = Some (p ++ q)).
  { intros p d. rewrite elem_of_Append, list_elem_of_singleton.
    intros [H| ->]; [by apply elem_of_nil in H|].
    exists []; by rewrite app_nil_r. }
  induction a as [mode vs|mode|mode|mode|mode e|mode e|mode attrs IH|mode attrs IH]
    using Attribute_nested_ind; intros p v d;
    try (cbn [AttributeValidate Attribute_mode];
         destruct (undefined_mode mode); [apply Hinv|apply Hmode]).
  - cbn [AttributeValidate Attribute_mode].
    destruct (undefined_mode mode); [apply Hinv|].
    destruct v as [[s| | | | | |]|]; try apply Hmode.
    rewrite elem_of_ValidateStrings.
    intros [H|(values & _ & _ & ->)]; [by apply Hmode in H|].
    exists []; by rewrite app_nil_r.
  - destruct (undefined_mode mode) eqn:Hu;
      [cbn [AttributeValidate Attribute_mode]; rewrite Hu; apply Hinv|].
    destruct v as [[| | | | | |[ats|ats|ats vals]]|];
      try (cbn [AttributeValidate Attribute_mode]; rewrite Hu; apply Hmode).
    rewrite AttributeValidate_SingleNested by done.
    intros Hd.
    apply elem_of_AttributesValidate in Hd as [Hd|(n & a & Hin & Hd)];
      [by apply Hmode in Hd|].
    rewrite Forall_forall in IH.
    destruct (IH (n, a) Hin _ _ _ Hd) as [q Hq].
    exists (path.PathStepAttributeName n :: q).
    rewrite Hq. unfold path.AtName. by rewrite <- app_assoc.
  - destruct (undefined_mode mode) eqn:Hu;
      [cbn [AttributeValidate Attribute_mode]; rewrite Hu; apply Hinv|].
    destruct v as [[| | | |[e|e|e elems]| |]|];
      try (cbn [AttributeValidate Attribute_mode]; rewrite Hu; apply Hmode).
    rewrite AttributeValidate_ListNested by done.
    intros Hd.
    apply elem_of_ElementsValidate in Hd
      as [Hd|(j & ats & vals & n & a & Hj & Hin & Hd)];
      [by apply Hmode in Hd|].
    rewrite Forall_forall in IH.
    destruct (IH (n, a) Hin _ _ _ Hd) as [q Hq].
    exists (path.PathStepElementKeyInt (0 + j)
              :: path.PathStepAttributeName n :: q).
    rewrite Hq. unfold path.AtName, path.AtListIndex.
    by rewrite <- !app_assoc.
Qed.

(** The diagnostics of the attributes of an object at or below the path of
    one of them are those of that attribute. *)
Lemma AttributesValidate_at_field attrs p vals n a d q :
  (forall a', (n, a') ∈ attrs -> a' = a) ->
  (n, a) ∈ attrs ->
  diag.AttrPath d = Some (path.AtName p n ++ q) ->
  d ∈ AttributesValidate attrs p vals []
  <-> d ∈ AttributeValidate a (path.AtName p n) (vals n) [].
Proof.
  intros Huniq Hin Hp. rewrite elem_of_AttributesValidate. split.
  - intros [H|(n' & a' & Hin' & Hd)]; [by apply elem_of_nil in H|].
    destruct (AttributeValidate_path _ _ _ _ Hd) as [q' Hq'].
    rewrite Hp in Hq'. injection Hq' as Hq'. unfold path.AtName in Hq'.
    rewrite <- !app_assoc in Hq'. apply app_inv_head in Hq'.
    injection Hq' as -> _. by rewrite <- (Huniq a' Hin').
  - intros Hd. right. by exists n, a.
Qed.






(** Membership in a list of attributes written out. *)
Ltac attribute_cases H :=
  repeat (apply elem_of_cons in H as [H|H];
          [try discriminate H; try (by injection H as ->)|]);
  try (by apply elem_of_nil in H).









(* ===================================================================== *)
(** ** More on diagnostics *)
(* ===================================================================== *)

Lemma Append_present (diags : diag.Diagnostics) (d : diag.Diagnostic) :
  d ∈ diags -> diag.Append diags [d] = diags.
Proof.
  intros Hin. rewrite Append_one. unfold diag.Contains.
  by rewrite bool_decide_eq_true_2.
Qed.

Lemma HasError_Append (diags new : diag.Diagnostics) :
  diag.HasError (diag.Append diags new)
  = diag.HasError diags || diag.HasError new.
Proof.
  revert diags. induction new as [|d new IH]; intros diags.
  - cbn. by rewrite orb_false_r.
  - cbn [diag.Append]. unfold diag.Contains. case_bool_decide as Hin.
    + rewrite IH. cbn [diag.HasError existsb].
      destruct (diag.is_error d) eqn:He; [|done].
      rewrite (HasError_elem_of diags d Hin He). done.
    + rewrite IH, HasError_app. cbn [diag.HasError existsb].
      rewrite orb_false_r. by rewrite orb_assoc.
Qed.

(* ===================================================================== *)
(** ** The handlers on every path *)
(* ===================================================================== *)

Section handlers_paths.
Context {S : Type} (c : models.Client S).

(** X1. Delete with a decodable state asks the store once, for the stored
    id; an error of the store is reported under "Error deleting model",
    otherwise the response is returned as it was.  Either way the handler
    leaves the state of the response alone. *)
Theorem X1_delete_dispatches_stored_id
    (req : resource.DeleteRequest) (resp : resource.Response) (w : World S)
    (state : models.Model) :
  resource.DeleteState req = tfsdk.Known state ->
  diag.HasError (resource.Diagnostics resp) = false ->
  let id := ValueString (models.ID state) in
  let answer := models.DeleteModel c id (store w) in
  ModelResource.Delete c req resp w
  = (Returned
       (resource.mkResponse (resource.State resp)
          (match answer.1 with
           | Some e =>
               resource.Diagnostics resp
                 ++ [diag.NewErrorDiagnostic "Error deleting model" e]
           | None => resource.Diagnostics resp
           end)),
     mkWorld answer.2 (calls w ++ [CallDeleteModel id])).
Proof.
  intros HS Hn id answer. unfold ModelResource.Delete. rewrite HS.
  cbn [tfsdk.Get resource.Append resource.Diagnostics]. rewrite Append_nil, Hn.
  unfold mbind, M_bind, DeleteModel, call. fold id. subst answer.
  destruct (models.DeleteModel c id (store w)) as [[e|] s']; cbn [fst snd].
  - unfold mret, M_ret. f_equal.
    rewrite AddError_fresh by exact Hn. reflexivity.
  - reflexivity.
Qed.

(** X2. When the store answers with an error, Create, Read and Update of
    the resource and Read of the data source report it under their own
    summary with the store's message, leave the state of the response as it
    was, and have made that one call; a model returned beside the error is
    ignored. *)
Theorem X2_store_error_is_reported
    (resp : resource.Response) (w : World S) (m : models.Model)
    (ignored : option models.Model) (e : models.error) (s' : S) :
  diag.HasError (resource.Diagnostics resp) = false ->
  let failed summary :=
    resource.mkResponse (resource.State resp)
      (resource.Diagnostics resp ++ [diag.NewErrorDiagnostic summary e]) in
  (forall req,
      resource.CreatePlan req = tfsdk.Known m ->
      models.CreateModel c m (store w) = ((ignored, Some e), s') ->
      ModelResource.Create c req resp w
      = (Returned (failed "Error creating model"),
         mkWorld s' (calls w ++ [CallCreateModel m])))
  /\ (forall req,
      resource.ReadState req = tfsdk.Known m ->
      models.GetModel c (ValueString (models.ID m)) (store w)
        = ((ignored, Some e), s') ->
      ModelResource.Read c req resp w
      = (Returned (failed "Error reading model"),
         mkWorld s' (calls w ++ [CallGetModel (ValueString (models.ID m))])))
  /\ (forall req plan,
      resource.UpdatePlan req = tfsdk.Known plan ->
      resource.UpdateState req = tfsdk.Known m ->
      models.UpdateModel c (ValueString (models.ID m))
        (models.set_ID plan (models.ID m)) (store w)
        = ((ignored, Some e), s') ->
      ModelResource.Update c req resp w
      = (Returned (failed "Error updating model"),
         mkWorld s'
           (calls w ++ [CallUpdateModel (ValueString (models.ID m))
                          (models.set_ID plan (models.ID m))])))
  /\ (forall req,
      datasource.Config req = tfsdk.Known m ->
      models.GetModel c (ValueString (models.ID m)) (store w)
        = ((ignored, Some e), s') ->
      ModelDataSource.Read c req resp w
      = (Returned (failed "Error reading model"),
         mkWorld s' (calls w ++ [CallGetModel (ValueString (models.ID m))]))).
Proof.
  intros Hn failed. subst failed. cbv beta. repeat split.
  - intros req HP Hc. unfold ModelResource.Create. rewrite HP.
    cbn [tfsdk.Get resource.Append resource.Diagnostics].
    rewrite Append_nil, Hn.
    unfold mbind, M_bind, CreateModel, call. rewrite Hc.
    unfold mret, M_ret. f_equal. by rewrite AddError_fresh.
  - intros req HS Hc. erewrite Read_failed by done.
    f_equal. by rewrite AddError_fresh.
  - intros req plan HP HS Hc. unfold ModelResource.Update. rewrite HP, HS.
    cbn [tfsdk.Get resource.Append resource.Diagnostics].
    rewrite !Append_nil, Hn.
    unfold mbind, M_bind, UpdateModel, call. rewrite Hc.
    unfold mret, M_ret. f_equal. by rewrite AddError_fresh.
  - intros req HC Hc. unfold ModelDataSource.Read. rewrite HC.
    cbn [tfsdk.Get resource.Append resource.Diagnostics].
    rewrite Append_nil, Hn.
    unfold mbind, M_bind, GetModel, call. rewrite Hc.
    unfold mret, M_ret. f_equal. by rewrite AddError_fresh.
Qed.

(** X3. A handler that finds an error in the response it is given, or that
    cannot decode its plan, state or configuration because it is null,
    returns with an error and has made no call on the store. *)
Theorem X3_no_call_without_decodable_request
    (resp : resource.Response) (w : World S) :
  (forall req,
      resource.CreatePlan req = tfsdk.Null
      \/ diag.HasError (resource.Diagnostics resp) = true ->
      exists r, ModelResource.Create c req resp w = (Returned r, w)
                /\ diag.HasError (resource.Diagnostics r) = true
                /\ resource.State r = resource.State resp)
  /\ (forall req,
      resource.ReadState req = tfsdk.Null
      \/ diag.HasError (resource.Diagnostics resp) = true ->
      exists r, ModelResource.Read c req resp w = (Returned r, w)
                /\ diag.HasError (resource.Diagnostics r) = true
                /\ resource.State r = resource.State resp)
  /\ (forall req,
      resource.UpdatePlan req = tfsdk.Null
      \/ resource.UpdateState req = tfsdk.Null
      \/ diag.HasError (resource.Diagnostics resp) = true ->
      exists r, ModelResource.Update c req resp w = (Returned r, w)
                /\ diag.HasError (resource.Diagnostics r) = true
                /\ resource.State r = resource.State resp)
  /\ (forall req,
      resource.DeleteState req = tfsdk.Null
      \/ diag.HasError (resource.Diagnostics resp) = true ->
      exists r, ModelResource.Delete c req resp w = (Returned r, w)
                /\ diag.HasError (resource.Diagnostics r) = true
                /\ resource.State r = resource.State resp)
  /\ (forall req,
      datasource.Config req = tfsdk.Null
      \/ diag.HasError (resource.Diagnostics resp) = true ->
      exists r, ModelDataSource.Read c req resp w = (Returned r, w)
                /\ diag.HasError (resource.Diagnostics r) = true
                /\ resource.State r = resource.State resp).
Proof.
  assert (Hget : forall d,
             d = tfsdk.Null \/ diag.HasError (resource.Diagnostics resp) = true ->
             diag.HasError
               (resource.Diagnostics (resource.Append resp (tfsdk.Get d).2))
             = true).
  { intros d [-> | He]; cbn [resource.Append resource.Diagnostics];
      rewrite HasError_Append; [apply orb_true_r|by rewrite He]. }
  repeat split.
  - intros req H. unfold ModelResource.Create.
    specialize (Hget _ H). destruct (tfsdk.Get _) as [plan diags].
    cbn [snd] in Hget. rewrite Hget. eexists. by split.
  - intros req H. unfold ModelResource.Read.
    specialize (Hget _ H). destruct (tfsdk.Get _) as [state diags].
    cbn [snd] in Hget. rewrite Hget. eexists. by split.
  - intros req H. unfold ModelResource.Update.
    destruct (diag.HasError (resource.Diagnostics
                (resource.Append resp (tfsdk.Get (resource.UpdatePlan req)).2)))
      eqn:He1.
    + destruct (tfsdk.Get (resource.UpdatePlan req)) as [plan diags].
      cbn [snd] in He1. rewrite He1. eexists. by split.
    + assert (Hn : diag.HasError (resource.Diagnostics resp) = false).
      { cbn in He1. rewrite HasError_Append in He1.
        by apply orb_false_elim in He1 as [? _]. }
      destruct H as [HP | [HS | He]];
        [by rewrite HP, (Hget tfsdk.Null) in He1 by (by left)
        | |by rewrite He in Hn].
      destruct (tfsdk.Get (resource.UpdatePlan req)) as [plan diags].
      cbn [snd] in He1. rewrite He1, HS.
      cbn [tfsdk.Get resource.Append resource.Diagnostics resource.State].
      eexists. split; [|split].
      * rewrite HasError_Append. cbn [diag.HasError existsb diag.is_error
          diag.NewErrorDiagnostic diag.Sev]. rewrite orb_true_r. reflexivity.
      * cbn [resource.Append resource.Diagnostics].
        rewrite HasError_Append. apply orb_true_r.
      * reflexivity.
  - intros req H. unfold ModelResource.Delete.
    specialize (Hget _ H). destruct (tfsdk.Get _) as [state diags].
    cbn [snd] in Hget. rewrite Hget. eexists. by split.
  - intros req H. unfold ModelDataSource.Read.
    specialize (Hget _ H). destruct (tfsdk.Get _) as [config diags].
    cbn [snd] in Hget. rewrite Hget. eexists. by split.
Qed.

End handlers_paths.

Section handlers_edges.
Context {S : Type} (c : models.Client S).

(** X4. When the store answers with neither a model nor an error, Create,
    Read and Update of the resource read the id of the nil model and panic,
    after the call and before anything is added to the response. *)
Theorem X4_nil_model_without_error_panics
    (resp : resource.Response) (w : World S) (m : models.Model) (s' : S) :
  diag.HasError (resource.Diagnostics resp) = false ->
  let nil_dereference := "invalid memory address or nil pointer dereference" in
  (forall req,
      resource.CreatePlan req = tfsdk.Known m ->
      models.CreateModel c m (store w) = ((None, None), s') ->
      ModelResource.Create c req resp w
      = (Panicked nil_dereference,
         mkWorld s' (calls w ++ [CallCreateModel m])))
  /\ (forall req,
      resource.ReadState req = tfsdk.Known m ->
      models.GetModel c (ValueString (models.ID m)) (store w)
        = ((None, None), s') ->
      ModelResource.Read c req resp w
      = (Panicked nil_dereference,
         mkWorld s' (calls w ++ [CallGetModel (ValueString (models.ID m))])))
  /\ (forall req plan,
      resource.UpdatePlan req = tfsdk.Known plan ->
      resource.UpdateState req = tfsdk.Known m ->
      models.UpdateModel c (ValueString (models.ID m))
        (models.set_ID plan (models.ID m)) (store w)
        = ((None, None), s') ->
      ModelResource.Update c req resp w
      = (Panicked nil_dereference,
         mkWorld s'
           (calls w ++ [CallUpdateModel (ValueString (models.ID m))
                          (models.set_ID plan (models.ID m))]))).
Proof.
  intros Hn nil_dereference. repeat split.
  - intros req HP Hc. unfold ModelResource.Create. rewrite HP.
    cbn [tfsdk.Get resource.Append resource.Diagnostics].
    rewrite Append_nil, Hn.
    unfold mbind, M_bind, CreateModel, call. rewrite Hc. reflexivity.
  - intros req HS Hc. unfold ModelResource.Read. rewrite HS.
    cbn [tfsdk.Get resource.Append resource.Diagnostics].
    rewrite Append_nil, Hn.
    unfold mbind, M_bind, GetModel, call. rewrite Hc. reflexivity.
  - intros req plan HP HS Hc. unfold ModelResource.Update. rewrite HP, HS.
    cbn [tfsdk.Get resource.Append resource.Diagnostics].
    rewrite !Append_nil, Hn.
    unfold mbind, M_bind, UpdateModel, call. rewrite Hc. reflexivity.
Qed.

(** X5. Whatever the request, the response and the store, a handler makes
    at most one call on the client, of its own operation, and keeps the log
    of the earlier calls. *)
Theorem X5_at_most_one_call (resp : resource.Response) (w : World S) :
  (forall req,
      let after := calls (ModelResource.Create c req resp w).2 in
      after = calls w \/ exists m, after = calls w ++ [CallCreateModel m])
  /\ (forall req,
      let after := calls (ModelResource.Read c req resp w).2 in
      after = calls w \/ exists id, after = calls w ++ [CallGetModel id])
  /\ (forall req,
      let after := calls (ModelResource.Update c req resp w).2 in
      after = calls w
      \/ exists id m, after = calls w ++ [CallUpdateModel id m])
  /\ (forall req,
      let after := calls (ModelResource.Delete c req resp w).2 in
      after = calls w \/ exists id, after = calls w ++ [CallDeleteModel id])
  /\ (forall req,
      let after := calls (ModelDataSource.Read c req resp w).2 in
      after = calls w \/ exists id, after = calls w ++ [CallGetModel id]).
Proof.
  repeat split; intros req after; subst after.
  - unfold ModelResource.Create.
    destruct (tfsdk.Get _) as [plan diags].
    destruct (diag.HasError _); [by left|right]. exists plan.
    unfold mbind, M_bind, CreateModel, call.
    destruct (models.CreateModel c plan (store w)) as [[model [e|]] s'];
      [reflexivity|].
    destruct model as [m|]; [|reflexivity]. cbn [deref mret M_ret].
    by destruct (String_IsNull (models.ID m)).
  - unfold ModelResource.Read.
    destruct (tfsdk.Get _) as [state diags].
    destruct (diag.HasError _); [by left|right]. eexists.
    unfold mbind, M_bind, GetModel, call.
    destruct (models.GetModel c _ (store w)) as [[model [e|]] s'];
      [reflexivity|].
    by destruct model.
  - unfold ModelResource.Update.
    destruct (tfsdk.Get (resource.UpdatePlan req)) as [plan diags].
    destruct (diag.HasError _); [by left|].
    destruct (tfsdk.Get (resource.UpdateState req)) as [state diags'].
    destruct (diag.HasError _); [by left|right]. eexists _, _.
    unfold mbind, M_bind, UpdateModel, call.
    destruct (models.UpdateModel c _ _ (store w)) as [[model [e|]] s'];
      [reflexivity|].
    by destruct model.
  - unfold ModelResource.Delete.
    destruct (tfsdk.Get _) as [state diags].
    destruct (diag.HasError _); [by left|right]. eexists.
    unfold mbind, M_bind, DeleteModel, call.
    by destruct (models.DeleteModel c _ (store w)) as [[e|] s'].
  - unfold ModelDataSource.Read.
    destruct (tfsdk.Get _) as [config diags].
    destruct (diag.HasError _); [by left|right]. eexists.
    unfold mbind, M_bind, GetModel, call.
    destruct (models.GetModel c _ (store w)) as [[model [e|]] s'];
      [reflexivity|].
    by destruct model.
Qed.

(** X6. Create stores the resource the store returned exactly as returned
    whenever its id is not null: an id that is unknown or the known empty
    string passes the identity check and is stored. *)
Theorem X6_create_stores_any_id_that_is_not_null
    (req : resource.CreateRequest) (resp : resource.Response) (w : World S)
    (plan created : models.Model) (s' : S) :
  resource.CreatePlan req = tfsdk.Known plan ->
  diag.HasError (resource.Diagnostics resp) = false ->
  models.CreateModel c plan (store w) = ((Some created, None), s') ->
  models.ID created <> StringNull ->
  ModelResource.Create c req resp w
  = (Returned (resource.mkResponse (tfsdk.Known created)
                 (resource.Diagnostics resp)),
     mkWorld s' (calls w ++ [CallCreateModel plan])).
Proof.
  intros HP Hn Hc Hid. erewrite Create_answered by done.
  by destruct (models.ID created).
Qed.

(** X7. Read of the data source stores the model the store returned
    exactly as returned: unlike Read of the resource it has no fallback for
    the id, so a null id of the store replaces the configured id. *)
Theorem X7_data_source_read_stores_as_returned
    (req : datasource.ReadRequest) (resp : resource.Response) (w : World S)
    (config found : models.Model) (s' : S) :
  datasource.Config req = tfsdk.Known config ->
  diag.HasError (resource.Diagnostics resp) = false ->
  models.GetModel c (ValueString (models.ID config)) (store w)
    = ((Some found, None), s') ->
  ModelDataSource.Read c req resp w
  = (Returned (resource.mkResponse (tfsdk.Known found)
                 (resource.Diagnostics resp)),
     mkWorld s'
       (calls w ++ [CallGetModel (ValueString (models.ID config))])).
Proof.
  intros HC Hn Hg. unfold ModelDataSource.Read. rewrite HC.
  cbn [tfsdk.Get resource.Append resource.Diagnostics]. rewrite Append_nil, Hn.
  unfold mbind, M_bind, GetModel, call. rewrite Hg.
  cbn [resource.SetState tfsdk.Set_ resource.Diagnostics].
  by rewrite Append_nil.
Qed.

End handlers_edges.

(** X1 on the store in memory that holds "m-1". *)
Lemma X1_delete_dispatches_stored_id_witness :
  ModelResource.Delete examples.memory
    (resource.mkDeleteRequest examples.stored)
    (examples.fresh examples.stored) examples.holding_m1
  = (Returned (examples.fresh examples.stored),
     mkWorld (∅ : examples.Store) [CallDeleteModel "m-1"]).
Proof.
  rewrite (X1_delete_dispatches_stored_id examples.memory
             (resource.mkDeleteRequest examples.stored)
             (examples.fresh examples.stored) examples.holding_m1
             examples.m1); reflexivity.
Defined.

(** X2 on a store that does not find "m-1". *)
Lemma X2_store_error_is_reported_witness :
  ModelResource.Read examples.forgetful
    (resource.mkReadRequest examples.stored)
    (examples.fresh examples.stored) examples.holding_m1
  = (Returned
       (resource.mkResponse examples.stored
          [diag.NewErrorDiagnostic "Error reading model" examples.not_found]),
     mkWorld (store examples.holding_m1) [CallGetModel "m-1"]).
Proof.
  destruct (X2_store_error_is_reported examples.forgetful
              (examples.fresh examples.stored) examples.holding_m1
              examples.m1 None examples.not_found
              (store examples.holding_m1))
    as (_ & H & _); [reflexivity|].
  apply (H (resource.mkReadRequest examples.stored)); reflexivity.
Defined.

(** X3 on a Read without a stored state. *)
Lemma X3_no_call_without_decodable_request_witness :
  exists r,
    ModelResource.Read examples.memory (resource.mkReadRequest tfsdk.Null)
      (examples.fresh tfsdk.Null) examples.holding_m1
    = (Returned r, examples.holding_m1)
    /\ diag.HasError (resource.Diagnostics r) = true.
Proof.
  destruct (X3_no_call_without_decodable_request examples.memory
              (examples.fresh tfsdk.Null) examples.holding_m1)
    as (_ & H & _).
  destruct (H (resource.mkReadRequest tfsdk.Null)) as (r & Hr & He & _);
    [by left|].
  exists r. by split.
Defined.

(** X4 on a store that answers a get with nothing at all. *)
Lemma X4_nil_model_without_error_panics_witness :
  exists msg,
    ModelResource.Read examples.silent
      (resource.mkReadRequest examples.stored)
      (examples.fresh examples.stored) examples.holding_m1
    = (Panicked msg,
       mkWorld (store examples.holding_m1) [CallGetModel "m-1"]).
Proof.
  destruct (X4_nil_model_without_error_panics examples.silent
              (examples.fresh examples.stored) examples.holding_m1
              examples.m1 (store examples.holding_m1))
    as (_ & H & _); [reflexivity|].
  eexists. apply (H (resource.mkReadRequest examples.stored)); reflexivity.
Defined.

(** X6 on a store that answers with the empty string as id. *)
Lemma X6_create_stores_any_id_that_is_not_null_witness :
  exists created w',
    ModelResource.Create examples.blank_id
      (resource.mkCreateRequest (tfsdk.Known examples.m1)
         (tfsdk.Known examples.m1))
      (examples.fresh tfsdk.Null) examples.empty_world
    = (Returned (resource.mkResponse (tfsdk.Known created) []), w')
    /\ models.ID created = StringValue "".
Proof.
  exists (models.set_ID examples.m1 (StringValue "")). eexists.
  split; [|reflexivity].
  apply (X6_create_stores_any_id_that_is_not_null examples.blank_id
           (resource.mkCreateRequest (tfsdk.Known examples.m1)
              (tfsdk.Known examples.m1))
           (examples.fresh tfsdk.Null) examples.empty_world examples.m1
           (models.set_ID examples.m1 (StringValue ""))
           (<["m-1" := examples.m1]> (store examples.empty_world)));
    [reflexivity..|discriminate].
Defined.

(** X7 on a store that leaves the id out of its answers. *)
Lemma X7_data_source_read_stores_as_returned_witness :
  exists found w',
    ModelDataSource.Read examples.omits_id
      (datasource.mkReadRequest examples.stored)
      (examples.fresh examples.stored) examples.holding_m1
    = (Returned (resource.mkResponse (tfsdk.Known found) []), w')
    /\ models.ID found = StringNull.
Proof.
  exists (models.set_ID examples.m1 StringNull). eexists.
  split; [|reflexivity].
  apply (X7_data_source_read_stores_as_returned examples.omits_id
           (datasource.mkReadRequest examples.stored)
           (examples.fresh examples.stored) examples.holding_m1
           examples.m1 (models.set_ID examples.m1 StringNull)
           (store examples.holding_m1)); reflexivity.
Defined.

(* ===================================================================== *)
(** ** More on the default resolver *)
(* ===================================================================== *)

Lemma elem_of_Append_one_iff (diags : diag.Diagnostics) (d x : diag.Diagnostic) :
  d ∈ diag.Append diags [x] <-> d ∈ diags \/ d = x.
Proof.
  rewrite Append_one. unfold diag.Contains. case_bool_decide as Hin.
  - split; [by left|]. by intros [?| ->].
  - rewrite elem_of_app, list_elem_of_singleton. done.
Qed.

(** X8. A private desired state with an explicit access control passes the
    modifier untouched: plan value, diagnostics and replacement flag are
    those of the response it was given. *)
Theorem X8_private_explicit_passes_through
    (req : planmodifier.ObjectRequest) (resp : planmodifier.ObjectResponse)
    (m : models.Model) :
  planmodifier.Plan req = tfsdk.Known m ->
  models.IsPrivate m = BoolValue true ->
  Object_IsNull (models.AccessControl m) = false ->
  Object_IsUnknown (models.AccessControl m) = false ->
  AccessControlDefaultModifier.PlanModifyObject req resp = resp.
Proof.
  intros HP Hp Hn Hu. rewrite PlanModifyObject_cases. cbv zeta.
  rewrite HP, GetAttribute_is_private, GetAttribute_access_control, Hp, Hn, Hu.
  reflexivity.
Qed.

(** X8 at a private model shared with one reader. *)
Lemma X8_private_explicit_passes_through_witness :
  let m := examples.declared (StringValue "m-1") examples.no_params
             (BoolValue true) examples.shared_with_ada in
  planmodifier.RespPlanValue
    (AccessControlDefaultModifier.PlanModifyObject
       (examples.modify m tfsdk.Null)
       (planmodifier.initial (examples.modify m tfsdk.Null)))
  = examples.shared_with_ada.
Proof.
  intros m.
  rewrite (X8_private_explicit_passes_through
             (examples.modify m tfsdk.Null)
             (planmodifier.initial (examples.modify m tfsdk.Null)) m);
    reflexivity.
Defined.

(** X9. When the modifier starts from the planned access control and ends
    without an error, the resolved value agrees with the privacy flag: it is
    null when the flag reads as false, and neither null nor unknown when it
    reads as true. *)
Theorem X9_resolved_value_agrees_with_privacy
    (req : planmodifier.ObjectRequest) (resp : planmodifier.ObjectResponse) :
  let isPrivate :=
    ValueBool (tfsdk.GetAttribute_Bool (planmodifier.Plan req)
                 (path.Root "is_private")) in
  let resp' := AccessControlDefaultModifier.PlanModifyObject req resp in
  planmodifier.RespPlanValue resp
  = tfsdk.GetAttribute_Object (planmodifier.Plan req)
      (path.Root "access_control") ->
  diag.HasError (planmodifier.Diagnostics resp') = false ->
  (isPrivate = false ->
   Object_IsNull (planmodifier.RespPlanValue resp') = true)
  /\ (isPrivate = true ->
      Object_IsNull (planmodifier.RespPlanValue resp') = false
      /\ Object_IsUnknown (planmodifier.RespPlanValue resp') = false).
Proof.
  intros isPrivate resp' Hpv. subst resp'.
  rewrite PlanModifyObject_cases. cbv zeta. fold isPrivate. rewrite <- Hpv.
  destruct isPrivate;
    destruct (Object_IsNull (planmodifier.RespPlanValue resp)) eqn:Hn;
    destruct (Object_IsUnknown (planmodifier.RespPlanValue resp)) eqn:Hu;
    cbn [orb planmodifier.RespPlanValue planmodifier.Diagnostics];
    intros He; try (split; [done|]; try done; by intros _);
    try (split; [by intros _|done]).
  exfalso. unfold diag.AddAttributeError in He.
  rewrite HasError_Append_one in He; done.
Qed.

(** X9 at a private model whose access control is unknown at plan time. *)
Lemma X9_resolved_value_agrees_with_privacy_witness :
  let m := examples.declared (StringValue "m-1") examples.no_params
             (BoolValue true)
             (ObjectUnknown AccessControlDefaultModifier.attributeTypes) in
  let resp' :=
    AccessControlDefaultModifier.PlanModifyObject
      (examples.modify m tfsdk.Null)
      (planmodifier.initial (examples.modify m tfsdk.Null)) in
  Object_IsNull (planmodifier.RespPlanValue resp') = false
  /\ Object_IsUnknown (planmodifier.RespPlanValue resp') = false.
Proof.
  intros m resp'.
  apply (X9_resolved_value_agrees_with_privacy
           (examples.modify m tfsdk.Null)
           (planmodifier.initial (examples.modify m tfsdk.Null)));
    reflexivity.
Defined.

(** X10. Resolution is idempotent: running the modifier again on the plan
    that holds the resolved access control, and on the response of the first
    run, changes nothing, conflicts included (their two diagnostics are not
    added twice). *)
Theorem X10_resolution_is_idempotent
    (req : planmodifier.ObjectRequest) (resp : planmodifier.ObjectResponse)
    (m : models.Model) :
  planmodifier.Plan req = tfsdk.Known m ->
  planmodifier.RespPlanValue resp = models.AccessControl m ->
  let resp' := AccessControlDefaultModifier.PlanModifyObject req resp in
  AccessControlDefaultModifier.PlanModifyObject
    (planmodifier.with_Plan req
       (tfsdk.Known
          (models.set_AccessControl m (planmodifier.RespPlanValue resp'))))
    resp'
  = resp'.
Proof.
  intros HP Hpv resp'. subst resp'.
  rewrite !PlanModifyObject_cases. cbv zeta.
  cbn [planmodifier.with_Plan planmodifier.Plan].
  rewrite HP, !GetAttribute_is_private, !GetAttribute_access_control.
  cbn [models.set_AccessControl models.IsPrivate models.AccessControl].
  destruct resp as [pv ds rr]. cbn [planmodifier.RespPlanValue] in Hpv.
  subst pv.
  destruct (ValueBool (models.IsPrivate m));
    destruct (Object_IsNull (models.AccessControl m)) eqn:Hn;
    destruct (Object_IsUnknown (models.AccessControl m)) eqn:Hu;
    cbn [orb planmodifier.RespPlanValue planmodifier.Diagnostics
         planmodifier.RequiresReplace Object_IsNull Object_IsUnknown
         AccessControlDefaultModifier.emptyAccessControl];
    rewrite ?Hn, ?Hu; cbn [orb]; try reflexivity.
  f_equal. unfold diag.AddAttributeError.
  rewrite (Append_present (diag.Append (diag.Append ds _) _)
             (diag.NewAttributeErrorDiagnostic (path.Root "is_private") _ _))
    by apply elem_of_Append_l, elem_of_Append_one.
  apply Append_present, elem_of_Append_one.
Qed.

(** X10 at a public model that lists a reader: the conflict is reported
    once. *)
Lemma X10_resolution_is_idempotent_witness :
  let m := examples.declared (StringValue "m-1") examples.no_params
             (BoolValue false) examples.shared_with_ada in
  let req := examples.modify m tfsdk.Null in
  let resp' :=
    AccessControlDefaultModifier.PlanModifyObject req
      (planmodifier.initial req) in
  AccessControlDefaultModifier.PlanModifyObject
    (planmodifier.with_Plan req
       (tfsdk.Known
          (models.set_AccessControl m (planmodifier.RespPlanValue resp'))))
    resp'
  = resp'
  /\ length (planmodifier.Diagnostics resp') = 2.
Proof.
  intros m req resp'. split; [|reflexivity].
  apply (X10_resolution_is_idempotent req (planmodifier.initial req) m);
    reflexivity.
Defined.

(** X11. The modifier never changes the replacement flag and never drops a
    diagnostic; the only diagnostics it can add are the two of the
    conflict. *)
Theorem X11_modifier_only_adds_the_conflict
    (req : planmodifier.ObjectRequest) (resp : planmodifier.ObjectResponse) :
  let resp' := AccessControlDefaultModifier.PlanModifyObject req resp in
  planmodifier.RequiresReplace resp' = planmodifier.RequiresReplace resp
  /\ forall d,
       d ∈ planmodifier.Diagnostics resp'
       <-> d ∈ planmodifier.Diagnostics resp
           \/ (d ∈ [AccessControlDefaultModifier.is_private_conflict;
                    AccessControlDefaultModifier.access_control_conflict]
               /\ planmodifier.Diagnostics resp'
                  <> planmodifier.Diagnostics resp).
Proof.
  intros resp'. subst resp'. rewrite PlanModifyObject_cases. cbv zeta.
  destruct (ValueBool _); destruct (_ || _);
    cbn [planmodifier.RequiresReplace planmodifier.Diagnostics];
    (split; [reflexivity|]); intros d;
    try (split; [by left|by intros [?|[_ ?]]]).
  unfold diag.AddAttributeError.
  fold AccessControlDefaultModifier.is_private_conflict.
  fold AccessControlDefaultModifier.access_control_conflict.
  rewrite !elem_of_Append_one_iff, elem_of_cons, list_elem_of_singleton.
  split.
  - intros Hd.
    destruct (decide (d ∈ planmodifier.Diagnostics resp)) as [|Hnew];
      [by left|right].
    split; [by destruct Hd as [[?|?]|?]; [done|left|right]|].
    intros Heq. apply Hnew. rewrite <- Heq.
    rewrite !elem_of_Append_one_iff. tauto.
  - intros [?|[[?|?] _]]; tauto.
Qed.

(* ===================================================================== *)
(** ** The schema and the values written for it *)
(* ===================================================================== *)

(** X12. Whenever the modifier writes a plan value, the synthesized access
    control or the null object, that value has exactly the type the resource
    schema declares for [access_control]: the attribute types spelled out in
    [PlanModifyObject] are those of the nested schema. *)
Theorem X12_modifier_writes_schema_typed_values
    (req : planmodifier.ObjectRequest) (resp : planmodifier.ObjectResponse) :
  let resp' := AccessControlDefaultModifier.PlanModifyObject req resp in
  planmodifier.RespPlanValue resp' = planmodifier.RespPlanValue resp
  \/ schematypes.AttributeTypes (Attributes ModelResourceSchema.Schema)
       !! "access_control"
     = Some (Value_Type (VObject (planmodifier.RespPlanValue resp'))).
Proof.
  intros resp'. subst resp'. rewrite PlanModifyObject_cases. cbv zeta.
  destruct (ValueBool _); destruct (_ || _);
    cbn [planmodifier.RespPlanValue]; try (by left); right;
    vm_compute; reflexivity.
Qed.

(** X13. The static default of [params] is well formed: building it reports
    no diagnostic (so [ObjectValueMust] does not panic), it is the known
    object of fourteen null attributes, its attribute types are exactly
    those the schema declares for [params], and a configuration that holds
    it, with the required attributes set and the read-only ones left out,
    passes validation. *)
Theorem X13_params_default_matches_schema :
  ObjectValue schematypes.paramsDefaultTypes schematypes.paramsDefaultValues
  = (ObjectKnown schematypes.paramsDefaultTypes
       schematypes.paramsDefaultValues, [])
  /\ size schematypes.paramsDefaultValues = 14
  /\ schematypes.AttributeTypes (Attributes ModelResourceSchema.Schema)
       !! "params"
     = Some (ObjectType schematypes.paramsDefaultTypes)
  /\ ValidateConfig ModelResourceSchema.Schema
       (tfsdk.Known
          (examples.configured (StringValue "m-1")
             (ObjectKnown schematypes.paramsDefaultTypes
                schematypes.paramsDefaultValues)
             (BoolValue false) (ObjectNull ∅)))
     = [].
Proof. repeat split; vm_compute; reflexivity. Qed.

(** Validation at a top-level attribute that has neither validators nor
    nested attributes: the checks of its mode. *)
Lemma ValidateConfig_at_root_leaf
    (s : Schema) name a (m : models.Model) d :
  (forall a', (name, a') ∈ Attributes s -> a' = a) ->
  (name, a) ∈ Attributes s ->
  (forall p v, AttributeValidate a p v []
               = ModeValidate (Attribute_mode a) p v []) ->
  diag.AttrPath d = Some (path.Root name) ->
  d ∈ ValidateConfig s (tfsdk.Known m)
  <-> (d = ReadOnlyDiagnostic (path.Root name)
       /\ Computed (Attribute_mode a) && negb (Optional (Attribute_mode a))
          && negb (IsNull (models.Attribute m name)) = true)
      \/ (d = MissingRequiredDiagnostic (path.Root name)
          /\ Required (Attribute_mode a) && IsNull (models.Attribute m name)
             = true).
Proof.
  intros Hu Hin Hleaf Hp. cbn [ValidateConfig].
  rewrite (AttributesValidate_at_field (Attributes s) []
             (models.Attribute m) name a d [] Hu Hin)
    by (by rewrite app_nil_r).
  rewrite Hleaf, elem_of_ModeValidate. split; [|tauto].
  intros [H|?]; [by apply elem_of_nil in H|done].
Qed.

(** X14. Validation against the resource schema reports a missing required
    attribute at [id], [base_model_id] and [name] exactly when that
    attribute is null in the configuration, and a configured read-only
    attribute at [user_id], [created_at] and [updated_at] exactly when that
    attribute is not null; no other diagnostic is reported at these six
    paths. *)
Theorem X14_required_and_read_only_are_checked
    (m : models.Model) (d : diag.Diagnostic) :
  let diags := ValidateConfig ModelResourceSchema.Schema (tfsdk.Known m) in
  (diag.AttrPath d = Some (path.Root "id") ->
   (d ∈ diags <-> d = MissingRequiredDiagnostic (path.Root "id")
                  /\ models.ID m = StringNull))
  /\ (diag.AttrPath d = Some (path.Root "base_model_id") ->
      (d ∈ diags <-> d = MissingRequiredDiagnostic (path.Root "base_model_id")
                     /\ models.BaseModelID m = StringNull))
  /\ (diag.AttrPath d = Some (path.Root "name") ->
      (d ∈ diags <-> d = MissingRequiredDiagnostic (path.Root "name")
                     /\ models.Name m = StringNull))
  /\ (diag.AttrPath d = Some (path.Root "user_id") ->
      (d ∈ diags <-> d = ReadOnlyDiagnostic (path.Root "user_id")
                     /\ models.UserID m <> StringNull))
  /\ (diag.AttrPath d = Some (path.Root "created_at") ->
      (d ∈ diags <-> d = ReadOnlyDiagnostic (path.Root "created_at")
                     /\ models.CreatedAt m <> Int64Null))
  /\ (diag.AttrPath d = Some (path.Root "updated_at") ->
      (d ∈ diags <-> d = ReadOnlyDiagnostic (path.Root "updated_at")
                     /\ models.UpdatedAt m <> Int64Null)).
Proof.
  intros diags. subst diags.
  assert (Hstr : forall mode p v,
             undefined_mode mode = false ->
             AttributeValidate (StringAttribute mode []) p v []
             = ModeValidate (Attribute_mode (StringAttribute mode [])) p v []).
  { intros mode p v Hu. cbn [AttributeValidate Attribute_mode]. rewrite Hu.
    by destruct v as [[]|]. }
  assert (Hint : forall mode p v,
             undefined_mode mode = false ->
             AttributeValidate (Int64Attribute mode) p v []
             = ModeValidate (Attribute_mode (Int64Attribute mode)) p v []).
  { intros mode p v Hu. cbn [AttributeValidate Attribute_mode].
    by rewrite Hu. }
  split; [|split; [|split; [|split; [|split]]]].
  - intros Hp.
    rewrite (ValidateConfig_at_root_leaf _ "id" (StringAttribute required [])
               m d); [|intros a' H; cbn in H; attribute_cases H
                      |cbn; apply list_elem_of_here|by intros; apply Hstr|done].
    change (models.Attribute m "id") with (Some (VString (models.ID m))).
    cbn. destruct (models.ID m); intuition discriminate.
  - intros Hp.
    rewrite (ValidateConfig_at_root_leaf _ "base_model_id"
               (StringAttribute required []) m d);
      [|intros a' H; cbn in H; attribute_cases H
       |cbn; do 2 apply list_elem_of_further; apply list_elem_of_here
       |by intros; apply Hstr|done].
    change (models.Attribute m "base_model_id")
      with (Some (VString (models.BaseModelID m))).
    cbn. destruct (models.BaseModelID m); intuition discriminate.
  - intros Hp.
    rewrite (ValidateConfig_at_root_leaf _ "name"
               (StringAttribute required []) m d);
      [|intros a' H; cbn in H; attribute_cases H
       |cbn; do 3 apply list_elem_of_further; apply list_elem_of_here
       |by intros; apply Hstr|done].
    change (models.Attribute m "name") with (Some (VString (models.Name m))).
    cbn. destruct (models.Name m); intuition discriminate.
  - intros Hp.
    rewrite (ValidateConfig_at_root_leaf _ "user_id"
               (StringAttribute computed []) m d);
      [|intros a' H; cbn in H; attribute_cases H
       |cbn; apply list_elem_of_further; apply list_elem_of_here
       |by intros; apply Hstr|done].
    change (models.Attribute m "user_id")
      with (Some (VString (models.UserID m))).
    cbn. destruct (models.UserID m); intuition (discriminate || congruence).
  - intros Hp.
    rewrite (ValidateConfig_at_root_leaf _ "created_at"
               (Int64Attribute computed) m d);
      [|intros a' H; cbn in H; attribute_cases H
       |cbn; do 8 apply list_elem_of_further; apply list_elem_of_here
       |by intros; apply Hint|done].
    change (models.Attribute m "created_at")
      with (Some (VInt64 (models.CreatedAt m))).
    cbn. destruct (models.CreatedAt m); intuition (discriminate || congruence).
  - intros Hp.
    rewrite (ValidateConfig_at_root_leaf _ "updated_at"
               (Int64Attribute computed) m d);
      [|intros a' H; cbn in H; attribute_cases H
       |cbn; do 9 apply list_elem_of_further; apply list_elem_of_here
       |by intros; apply Hint|done].
    change (models.Attribute m "updated_at")
      with (Some (VInt64 (models.UpdatedAt m))).
    cbn. destruct (models.UpdatedAt m); intuition (discriminate || congruence).
Qed.

(** X14 at the configuration that sets nothing: the id is missing. *)
Lemma X14_required_and_read_only_are_checked_witness :
  MissingRequiredDiagnostic (path.Root "id")
    ∈ ValidateConfig ModelResourceSchema.Schema (tfsdk.Known models.zero)
  /\ ReadOnlyDiagnostic (path.Root "user_id")
       ∉ ValidateConfig ModelResourceSchema.Schema (tfsdk.Known models.zero).
Proof.
  split.
  - destruct (X14_required_and_read_only_are_checked models.zero
                (MissingRequiredDiagnostic (path.Root "id"))) as (H & _).
    apply H; [reflexivity|]. by split.
  - destruct (X14_required_and_read_only_are_checked models.zero
                (ReadOnlyDiagnostic (path.Root "user_id")))
      as (_ & _ & _ & H & _).
    intros Hin. apply H in Hin as [_ Hne]; [|reflexivity]. by apply Hne.
Defined.

(* ===================================================================== *)
(** ** Configure *)
(* ===================================================================== *)

(** X15. Configure of the resource leaves client and diagnostics alone for
    nil provider data; it installs what is stored under "models" when the
    provider data is a map holding a [*models.Client] there, without a
    diagnostic and also when that pointer is nil; in every other case it
    keeps the client it had and reports an error.  Configure of the data
    source decides the same way. *)
Theorem X15_configure_installs_only_a_models_client
    {S : Type} (client : option (models.Client S))
    (data : configure.Any S) (diags : diag.Diagnostics) :
  let r := configure.ModelResource_Configure client data diags in
  let d := configure.ModelDataSource_Configure client data diags in
  (data = configure.Nil -> r = (client, diags))
  /\ (forall clients found,
        data = configure.MapStringAny clients ->
        clients !! "models" = Some (configure.ModelsClient found) ->
        r = (found, diags))
  /\ (data <> configure.Nil ->
      (forall clients found,
          data = configure.MapStringAny clients ->
          clients !! "models" <> Some (configure.ModelsClient found)) ->
      r.1 = client /\ diag.HasError r.2 = true)
  /\ d.1 = r.1
  /\ diag.HasError d.2 = diag.HasError r.2.
Proof.
  intros r d. subst r d.
  unfold configure.ModelResource_Configure, configure.ModelDataSource_Configure.
  unfold diag.AddError.
  split; [by intros ->|]. split.
  { intros clients found -> Hm. unfold configure.index. by rewrite Hm. }
  split.
  - intros Hnil Hno. destruct data as [|clients|cl|ty]; [done| | |].
    + unfold configure.index.
      destruct (clients !! "models") as [[|cs|fnd|ty]|] eqn:Hm;
        cbn [default from_option id fst snd];
        try (by rewrite HasError_Append_one).
      by destruct (Hno clients fnd).
    + cbn [fst snd]. by rewrite HasError_Append_one.
    + cbn [fst snd]. by rewrite HasError_Append_one.
  - destruct data as [|clients|cl|ty]; cbn [fst snd]; try done.
    + destruct (configure.index clients "models"); cbn [fst snd]; try done;
        by rewrite !HasError_Append.
    + by rewrite !HasError_Append.
    + by rewrite !HasError_Append.
Qed.

(** X15 with provider data whose "models" entry is a nil [*models.Client]
    (the client is dropped without a diagnostic) and with provider data that
    holds no "models" entry (an error, the client stays). *)
Lemma X15_configure_installs_only_a_models_client_witness :
  configure.ModelResource_Configure (Some examples.memory)
    (configure.MapStringAny {[ "models" := configure.ModelsClient None ]}) []
  = (None, [])
  /\ (configure.ModelResource_Configure (Some examples.memory)
        (configure.MapStringAny
           {[ "knowledge" := configure.Other "*knowledge.Client" ]}) []).1
     = Some examples.memory
  /\ diag.HasError
       (configure.ModelResource_Configure (Some examples.memory)
          (configure.MapStringAny
             {[ "knowledge" := configure.Other "*knowledge.Client" ]}) []).2
     = true.
Proof.
  split.
  - destruct (X15_configure_installs_only_a_models_client
                (Some examples.memory)
                (configure.MapStringAny
                   {[ "models" := configure.ModelsClient None ]}) [])
      as (_ & H & _).
    by apply (H {[ "models" := configure.ModelsClient None ]} None).
  - destruct (X15_configure_installs_only_a_models_client
                (Some examples.memory)
                (configure.MapStringAny
                   {[ "knowledge" := configure.Other "*knowledge.Client" ]}) [])
      as (_ & _ & H & _).
    apply H; [discriminate|].
    intros clients found [= <-]. discriminate.
Defined.

(* ===================================================================== *)
(** ** The OpenWebUI client *)
(* ===================================================================== *)

Section New_properties.
Context {BaseClient KnowledgeClient GroupsClient ModelsClient : Type}.
Context (NewBaseClient : string -> string -> BaseClient).
Context (knowledge_NewClient : string -> string -> KnowledgeClient).
Context (groups_NewClient : string -> string -> GroupsClient).
Context (models_NewClient : string -> string -> ModelsClient).

(** X16. [New] returns a client exactly when endpoint and token are both
    non-empty, and then no error; otherwise it returns no client and one
    error, which names the endpoint whenever the endpoint is empty, also
    when the token is empty too.  Every part of the client is built from the
    same endpoint and token. *)
Theorem X16_new_requires_endpoint_and_token (endpoint token : string) :
  let r := client.New NewBaseClient knowledge_NewClient groups_NewClient
             models_NewClient endpoint token in
  (endpoint = "" -> r = (None, Some "endpoint is required"))
  /\ (endpoint <> "" -> token = "" -> r = (None, Some "token is required"))
  /\ (endpoint <> "" -> token <> "" ->
      r = (Some (client.mkOpenWebUIClient
                   (NewBaseClient endpoint token)
                   (knowledge_NewClient endpoint token)
                   (groups_NewClient endpoint token)
                   (models_NewClient endpoint token)), None))
  /\ (is_Some r.1 <-> r.2 = None)
  /\ (r.2 = None <-> endpoint <> "" /\ token <> "").
Proof.
  intros r. subst r. unfold client.New.
  destruct (decide (endpoint = "")) as [He|He];
    [|destruct (decide (token = "")) as [Ht|Ht]]; cbn [fst snd].
  - repeat split; try done; try (by intros [? ?]).
  - repeat split; try done; try (by intros [? ?]).
  - repeat split; try done; by eexists.
Qed.

End New_properties.

(** X16 with both arguments empty, and with both given. *)
Lemma X16_new_requires_endpoint_and_token_witness :
  client.New (fun e t => (e, t)) (fun e t => (e, t)) (fun e t => (e, t))
    (fun e t => (e, t)) "" ""
  = (None, Some "endpoint is required")
  /\ (client.New (fun e t => (e, t)) (fun e t => (e, t)) (fun e t => (e, t))
        (fun e t => (e, t)) "https://chat.example" "sk-1").2
     = None.
Proof.
  split.
  - destruct (X16_new_requires_endpoint_and_token
                (fun e t : string => (e, t)) (fun e t : string => (e, t))
                (fun e t : string => (e, t)) (fun e t : string => (e, t))
                "" "") as (H & _).
    by apply H.
  - destruct (X16_new_requires_endpoint_and_token
                (fun e t : string => (e, t)) (fun e t : string => (e, t))
                (fun e t : string => (e, t)) (fun e t : string => (e, t))
                "https://chat.example" "sk-1") as (_ & _ & _ & _ & H).
    by apply H.
Defined.

(* ===================================================================== *)
(** ** Users *)
(* ===================================================================== *)

Section APIToUser_properties.
Context {Interface Map : Type}.
Context (zeroMap : Map).
Context (MapValueFrom :
           types.AttrType -> gmap string Interface -> Map * diag.Diagnostics).

(** X17. For every API user, [APIToUser] returns a user whose id, name,
    email, role, profile image URL and OAuth subject are known strings
    holding the API's strings, empty or not, and whose three timestamps
    are known; the API key is null exactly when the API user has none; the
    info is the zero map when the API user has none. *)
Theorem X17_converted_user_fields_are_known
    (u : users.APIUser.t Interface) :
  exists user,
    users.APIToUser zeroMap MapValueFrom (Some u) = Returned user
    /\ users.User.ID user = StringValue (users.APIUser.ID u)
    /\ users.User.Name user = StringValue (users.APIUser.Name u)
    /\ users.User.Email user = StringValue (users.APIUser.Email u)
    /\ users.User.Role user = StringValue (users.APIUser.Role u)
    /\ users.User.ProfileImageURL user
       = StringValue (users.APIUser.ProfileImageURL u)
    /\ users.User.OAuthSub user = StringValue (users.APIUser.OAuthSub u)
    /\ users.User.LastActiveAt user
       = Int64Value (users.APIUser.LastActiveAt u)
    /\ users.User.UpdatedAt user = Int64Value (users.APIUser.UpdatedAt u)
    /\ users.User.CreatedAt user = Int64Value (users.APIUser.CreatedAt u)
    /\ (String_IsNull (users.User.APIKey user) = true
        <-> users.APIUser.APIKey u = None)
    /\ String_IsUnknown (users.User.APIKey user) = false
    /\ (users.APIUser.Info u = None -> users.User.Info user = zeroMap).
Proof.
  eexists. split; [reflexivity|]. cbn.
  repeat split; try done.
  - by destruct (users.APIUser.APIKey u).
  - by intros ->.
  - by destruct (users.APIUser.APIKey u).
  - by intros ->.
Qed.

(** X18. The conversion loses nothing but the info: two API users that
    convert to the same user have the same strings, timestamps and API
    key. *)
Theorem X18_conversion_is_injective_up_to_info
    (u1 u2 : users.APIUser.t Interface) :
  users.APIToUser zeroMap MapValueFrom (Some u1)
  = users.APIToUser zeroMap MapValueFrom (Some u2) ->
  users.APIUser.ID u1 = users.APIUser.ID u2
  /\ users.APIUser.Name u1 = users.APIUser.Name u2
  /\ users.APIUser.Email u1 = users.APIUser.Email u2
  /\ users.APIUser.Role u1 = users.APIUser.Role u2
  /\ users.APIUser.ProfileImageURL u1 = users.APIUser.ProfileImageURL u2
  /\ users.APIUser.LastActiveAt u1 = users.APIUser.LastActiveAt u2
  /\ users.APIUser.UpdatedAt u1 = users.APIUser.UpdatedAt u2
  /\ users.APIUser.CreatedAt u1 = users.APIUser.CreatedAt u2
  /\ users.APIUser.APIKey u1 = users.APIUser.APIKey u2
  /\ users.APIUser.OAuthSub u1 = users.APIUser.OAuthSub u2.
Proof.
  unfold users.APIToUser. intros [= H1 H2 H3 H4 H5 H6 H7 H8 H9 _ H10].
  repeat split; try done.
  destruct (users.APIUser.APIKey u1), (users.APIUser.APIKey u2); congruence.
Qed.

End APIToUser_properties.

(** X17 at an API user without id, key and info. *)
Lemma X17_converted_user_fields_are_known_witness :
  let u : users.APIUser.t unit :=
    users.APIUser.mk "" "Ada" "ada@example.org" "admin" "" 0 0 0 None None ""
  in
  exists user,
    users.APIToUser (Map := option (gmap string string)) None
      (fun _ _ => (None, [])) (Some u) = Returned user
    /\ users.User.ID user = StringValue ""
    /\ users.User.APIKey user = StringNull
    /\ users.User.Info user = None.
Proof.
  intros u.
  destruct (X17_converted_user_fields_are_known
              (Map := option (gmap string string)) None
              (fun _ _ => (None, [])) u)
    as (user & Hrun & Hid & _ & _ & _ & _ & _ & _ & _ & _ & Hkey & Hunk & Hinfo).
  exists user. split; [exact Hrun|]. split; [exact Hid|]. split.
  - destruct (users.User.APIKey user); [done|done|].
    by destruct Hkey as [_ Hkey]; specialize (Hkey eq_refl).
  - by apply Hinfo.
Defined.

(** X18 at two equal API users whose key is the empty string. *)
Lemma X18_conversion_is_injective_up_to_info_witness :
  let u : users.APIUser.t unit :=
    users.APIUser.mk "u-1" "Ada" "ada@example.org" "admin" "" 0 0 0
      (Some "") None "" in
  users.APIUser.APIKey u = Some "".
Proof.
  intros u.
  destruct (X18_conversion_is_injective_up_to_info
              (Map := option (gmap string string)) None
              (fun _ _ => (None, [])) u
              (users.APIUser.mk "u-1" "Ada" "ada@example.org" "admin" ""
                 0 0 0 (Some "") None ""))
    as (_ & _ & _ & _ & _ & _ & _ & _ & H & _); [reflexivity|exact H].
Defined.

(* ===================================================================== *)
(** ** Import *)
(* ===================================================================== *)

(** X19. ImportState on the empty state stores the id of the request as a
    known string, with every other attribute null and the three nested
    objects null of the types the schema declares, and adds no
    diagnostic. *)
Theorem X19_import_sets_only_the_id
    (req : schematypes.ImportStateRequest) (resp : resource.Response) :
  resource.State resp = tfsdk.Null ->
  exists m,
    schematypes.ImportState req resp
    = resource.mkResponse (tfsdk.Known m) (resource.Diagnostics resp)
    /\ models.ID m = StringValue (schematypes.ID req)
    /\ models.UserID m = StringNull
    /\ models.BaseModelID m = StringNull
    /\ models.Name m = StringNull
    /\ models.IsActive m = BoolNull
    /\ models.IsPrivate m = BoolNull
    /\ models.CreatedAt m = Int64Null
    /\ models.UpdatedAt m = Int64Null
    /\ Object_IsNull (models.Params m) = true
    /\ Object_IsNull (models.Meta m) = true
    /\ models.AccessControl m
       = ObjectNull AccessControlDefaultModifier.attributeTypes.
Proof.
  intros Hst. eexists. split.
  { unfold schematypes.ImportState. rewrite Hst.
    cbn [schematypes.SetAttribute_id]. by rewrite Append_nil. }
  repeat split.
Qed.

(** X19 at the import of "m-1". *)
Lemma X19_import_sets_only_the_id_witness :
  exists m,
    schematypes.ImportState (schematypes.mkImportStateRequest "m-1")
      (examples.fresh tfsdk.Null)
    = resource.mkResponse (tfsdk.Known m) []
    /\ models.ID m = StringValue "m-1".
Proof.
  destruct (X19_import_sets_only_the_id
              (schematypes.mkImportStateRequest "m-1")
              (examples.fresh tfsdk.Null))
    as (m & Hrun & Hid & _); [reflexivity|].
  exists m. by split.
Defined.

(** X20. Import followed by Read: the Read of an imported state asks the
    store for exactly the imported id and, when the store answers with a
    resource, stores that resource, with the imported id in place of a null
    id. *)
Theorem X20_read_after_import_asks_for_imported_id
    {S : Type} (c : models.Client S)
    (ireq : schematypes.ImportStateRequest) (iresp resp : resource.Response)
    (w : World S) (remote : models.Model) (s' : S) :
  diag.HasError (resource.Diagnostics resp) = false ->
  models.GetModel c (schematypes.ID ireq) (store w)
    = ((Some remote, None), s') ->
  ModelResource.Read c
    (resource.mkReadRequest
       (resource.State (schematypes.ImportState ireq iresp)))
    resp w
  = (Returned
       (resource.mkResponse
          (tfsdk.Known
             (if String_IsNull (models.ID remote)
              then models.set_ID remote (StringValue (schematypes.ID ireq))
              else remote))
          (resource.Diagnostics resp)),
     mkWorld s' (calls w ++ [CallGetModel (schematypes.ID ireq)])).
Proof.
  intros Hn Hg. unfold schematypes.ImportState.
  destruct (resource.State iresp) as [|m0];
    cbn [schematypes.SetAttribute_id resource.State];
    erewrite Read_answered; try reflexivity; try done.
Qed.

(** X20 on the store in memory that holds "m-1". *)
Lemma X20_read_after_import_asks_for_imported_id_witness :
  ModelResource.Read examples.memory
    (resource.mkReadRequest
       (resource.State
          (schematypes.ImportState (schematypes.mkImportStateRequest "m-1")
             (examples.fresh tfsdk.Null))))
    (examples.fresh tfsdk.Null) examples.holding_m1
  = (Returned (resource.mkResponse (tfsdk.Known examples.m1) []),
     mkWorld (store examples.holding_m1) [CallGetModel "m-1"]).
Proof.
  apply (X20_read_after_import_asks_for_imported_id examples.memory
           (schematypes.mkImportStateRequest "m-1")
           (examples.fresh tfsdk.Null) (examples.fresh tfsdk.Null)
           examples.holding_m1 examples.m1 (store examples.holding_m1));
    reflexivity.
Defined.
